(** * Formula-one bot: response cache, colour resolver, rank bar and
      command handlers of [src/main.py], embedded in Rocq.

    Python values are modelled as follows.
    - [str] is [string]: the UTF-8 bytes of the text (the glyphs of the
      source are the byte sequences of the literals below).
    - the dictionary [cache] is a [gmap string (json * Q)];
      [TEAM_COLORS] is an association list in the insertion order of the
      literal, because the resolver iterates over it.
    - an exception is a value of [exn]; code that can raise returns a
      [result]; the handlers run in the monad [M] that threads the
      [world] (cache, clock, trace of outbound effects).
    - the wall clock is an integer number of microseconds since the epoch
      (the resolution of [datetime]); [timestamp()] is that instant in
      seconds, as a rational.
    - Python floats are rationals, and float arithmetic is exact.
    - a field that a handler writes into a text is read with [as_str]:
      the API sends texts there. For a payload with another type at such
      a place the model raises [TypeError], where Python would format
      the value.
    - the library functions that the handlers call ([str.lower], [int],
      [float], [strftime], [fromisoformat], the chart drawn with
      matplotlib) and the network are the fields of the class [Env]; the
      results hold for every instance.

    The first part holds the definitions, the second part the lemmas and
    the theorems on the cache, the resolver, the rank bar, the podium, the
    pages, the countdown and the discipline of the handlers, the third
    part further properties of the same code. *)

From Stdlib Require Import ZArith QArith Qround String Ascii List Lia.
From Stdlib Require Import DecimalString.
From Stdlib Require Import Sorting.Sorted Sorting.Permutation.
From stdpp Require Import base option list gmap strings.

Set Default Proof Using "Type".
Set Warnings "-register-all".
Local Open Scope string_scope.
Local Open Scope list_scope.
Local Open Scope Z_scope.

(** * Part I: definitions *)

(** ** Exceptions and results *)

Inductive exn : Type :=
| KeyError (key : string)
| IndexError (what : string)
| TypeError
| ValueError
| ZeroDivisionError
| AttributeError
| NameError (name : string)
| RequestError (url : string).

Inductive result (A : Type) : Type :=
| Ok (a : A)
| Raise (e : exn).
Arguments Ok {A} a.
Arguments Raise {A} e.

Definition is_ok {A} (r : result A) : bool :=
  match r with Ok _ => true | Raise _ => false end.

Definition result_bind {A B} (r : result A) (k : A -> result B) : result B :=
  match r with Ok a => k a | Raise e => Raise e end.

(** ** Text *)


(** [s.startswith(p)] *)
Fixpoint starts_with (p s : string) : bool :=
  match p, s with
  | EmptyString, _ => true
  | String a p', String b s' => Ascii.eqb a b && starts_with p' s'
  | String _ _, EmptyString => false
  end.

(** [sub in s] for two texts *)
Fixpoint str_in (sub s : string) : bool :=
  starts_with sub s ||
  match s with
  | EmptyString => false
  | String _ s' => str_in sub s'
  end.

(** [sub] occurs in [s] *)
Definition occurs_in (sub s : string) : Prop :=
  exists pre post : string, s = pre +:+ sub +:+ post.

(** [str.lower] on the ASCII letters; the other bytes are kept. *)
Definition ascii_lower_char (c : ascii) : ascii :=
  let n := nat_of_ascii c in
  if ((65 <=? n)%nat && (n <=? 90)%nat)%bool then ascii_of_nat (n + 32) else c.

Fixpoint ascii_lower (s : string) : string :=
  match s with
  | EmptyString => EmptyString
  | String c s' => String (ascii_lower_char c) (ascii_lower s')
  end.

(** The line feed of the f-strings *)
Definition nl : string := String (ascii_of_nat 10) EmptyString.

(** The zero-width space U+200B *)
Definition zero_width_space : string :=
  String (ascii_of_nat 226) (String (ascii_of_nat 128)
    (String (ascii_of_nat 139) EmptyString)).

(** [s.replace(a, "")] for a one-byte text [a] *)
Fixpoint remove_char (a : ascii) (s : string) : string :=
  match s with
  | EmptyString => EmptyString
  | String c s' =>
      if Ascii.eqb c a then remove_char a s' else String c (remove_char a s')
  end.

(** [s.replace(a, b)] for two one-byte texts *)
Fixpoint replace_char (a b : ascii) (s : string) : string :=
  match s with
  | EmptyString => EmptyString
  | String c s' =>
      String (if Ascii.eqb c a then b else c) (replace_char a b s')
  end.

(** The truth value of a text: it is not empty *)
Definition nonempty (s : string) : bool :=
  match s with EmptyString => false | String _ _ => true end.

(** [s * n] for a text [s]: empty when [n <= 0] *)
Fixpoint str_repeat (s : string) (n : nat) : string :=
  match n with
  | O => EmptyString
  | S k => s +:+ str_repeat s k
  end.

Definition str_mul (s : string) (n : Z) : string := str_repeat s (Z.to_nat n).

(** [str(n)] for an integer *)
Definition str_of_Z (n : Z) : string := NilZero.string_of_int (Z.to_int n).

(** A reader of decimal numerals (an optional minus sign, then ASCII
    digits), used to run the development on concrete inputs. *)
Fixpoint decimal_digits (s : string) (acc : Z) : result Z :=
  match s with
  | EmptyString => Ok acc
  | String c s' =>
      let n := Z.of_nat (nat_of_ascii c) in
      if ((48 <=? n) && (n <=? 57))%bool
      then decimal_digits s' (10 * acc + (n - 48))
      else Raise ValueError
  end.

Definition decimal_int (s : string) : result Z :=
  match s with
  | EmptyString => Raise ValueError
  | String "-" EmptyString => Raise ValueError
  | String "-" s' => result_bind (decimal_digits s' 0) (fun n => Ok (- n))
  | _ => decimal_digits s 0
  end.

(** ** Numbers *)

Definition Qltb (x y : Q) : bool := (Qnum x * QDen y <? Qnum y * QDen x)%Z.

(** [int(x)] for a float: truncation toward zero *)
Definition Qtrunc (x : Q) : Z := Z.quot (Qnum x) (Z.pos (Qden x)).

(** [max(0, x)] *)
Definition max0 (x : Q) : Q := if Qltb 0 x then x else 0%Q.

(** ** JSON payloads, with Python's subscript operator *)

Inductive json : Type :=
| JNull
| JBool (b : bool)
| JNum (n : Z)
| JStr (s : string)
| JArr (items : list json)
| JObj (members : list (string * json)).

Fixpoint assoc {A} (k : string) (l : list (string * A)) : option A :=
  match l with
  | [] => None
  | (k', v) :: l' => if String.eqb k k' then Some v else assoc k l'
  end.

(** [d[key]] *)
Definition getitem (d : json) (key : string) : result json :=
  match d with
  | JObj members =>
      match assoc key members with
      | Some v => Ok v
      | None => Raise (KeyError key)
      end
  | _ => Raise TypeError
  end.

(** The bytes of the first code point of a UTF-8 text: its first byte
    and the continuation bytes (10xxxxxx) that follow it. *)
Fixpoint continuation_bytes (s : string) : string :=
  match s with
  | String c s' =>
      if ((128 <=? Z.of_nat (nat_of_ascii c))%Z && (Z.of_nat (nat_of_ascii c) <? 192)%Z)%bool
      then String c (continuation_bytes s')
      else EmptyString
  | EmptyString => EmptyString
  end.

(** [l[0]]: the keys of a decoded JSON object are strings, so the integer
    subscript of a dictionary is a missing key. *)
Definition getitem0 (l : json) : result json :=
  match l with
  | JArr (x :: _) => Ok x
  | JArr [] => Raise (IndexError "list index out of range")
  | JObj _ => Raise (KeyError "0")
  | JStr (String c s) => Ok (JStr (String c (continuation_bytes s)))
  | JStr EmptyString => Raise (IndexError "string index out of range")
  | _ => Raise TypeError
  end.

(** [key in d]: a key of a dictionary, an item of a list, a part of a
    text *)
Definition contains_key (d : json) (key : string) : result bool :=
  match d with
  | JObj members => Ok (bool_decide (is_Some (assoc key members)))
  | JArr items =>
      Ok (existsb (fun item => match item with
                               | JStr s => String.eqb s key
                               | _ => false
                               end) items)
  | JStr s => Ok (str_in key s)
  | _ => Raise TypeError
  end.

(** [l[i]] for a list: a negative index counts from the end *)
Definition list_getitem {A} (l : list A) (i : Z) : result A :=
  let n := Z.of_nat (length l) in
  let j := if i <? 0 then i + n else i in
  match (if (0 <=? j) && (j <? n) then nth_error l (Z.to_nat j) else None) with
  | Some x => Ok x
  | None => Raise (IndexError "list index out of range")
  end.

(** [str(e)] for a caught exception *)
Definition str_exn (e : exn) : string :=
  match e with
  | KeyError key => "'" +:+ key +:+ "'"
  | IndexError what => what
  | TypeError => "TypeError"
  | ValueError => "ValueError"
  | ZeroDivisionError => "division by zero"
  | AttributeError => "AttributeError"
  | NameError name => "name '" +:+ name +:+ "' is not defined"
  | RequestError url => url
  end.

(** [except (IndexError, KeyError)] *)
Definition index_or_key_error (e : exn) : bool :=
  match e with
  | KeyError _ | IndexError _ => true
  | _ => false
  end.

Definition as_str (j : json) : result string :=
  match j with JStr s => Ok s | _ => Raise TypeError end.

Definition as_list (j : json) : result (list json) :=
  match j with JArr l => Ok l | _ => Raise TypeError end.

(** The receiver of a [str] method such as [replace] *)
Definition str_receiver (j : json) : result string :=
  match j with JStr s => Ok s | _ => Raise AttributeError end.

(** [d.get(key, default)] *)
Definition dict_get (d : json) (key : string) (default : json) : result json :=
  match d with
  | JObj members =>
      match assoc key members with
      | Some v => Ok v
      | None => Ok default
      end
  | _ => Raise AttributeError
  end.

(** The truth value of a decoded payload *)
Definition truthy (j : json) : bool :=
  match j with
  | JNull => false
  | JBool b => b
  | JNum n => negb (n =? 0)
  | JStr EmptyString => false
  | JStr (String _ _) => true
  | JArr [] => false
  | JArr (_ :: _) => true
  | JObj [] => false
  | JObj (_ :: _) => true
  end.

(** [d[key]] read as a text *)
Definition get_str (d : json) (key : string) : result string :=
  result_bind (getitem d key) as_str.

(** ** Lists: stable sort on an integer key, ranges and slices *)

(** [l.sort(key=...)]: a stable insertion sort on an integer key *)
Fixpoint insert_by {A} (key : A -> Z) (x : A) (l : list A) : list A :=
  match l with
  | [] => [x]
  | y :: l' =>
      if key x <=? key y then x :: y :: l' else y :: insert_by key x l'
  end.

Definition sort_by {A} (key : A -> Z) (l : list A) : list A :=
  fold_right (insert_by key) [] l.

Definition key_le {A} (key : A -> Z) (a b : A) : Prop := key a <= key b.

(** [range(start, stop, step)] for a positive step; [stop] steps are
    enough to reach [stop]. *)
Fixpoint range_from (fuel i stop step : nat) : list nat :=
  match fuel with
  | O => []
  | S fuel' =>
      if (i <? stop)%nat then i :: range_from fuel' (i + step) stop step
      else []
  end.

Definition py_range (start stop step : nat) : list nat :=
  range_from stop start stop step.

(** [l[i:j]] for [0 <= i <= j] *)
Definition slice {A} (l : list A) (i j : nat) : list A :=
  take (j - i) (drop i l).

(** [[results[i:i+7] for i in range(0, len(results), 7)]] *)
Definition chunks {A} (l : list A) : list (list A) :=
  map (fun i => slice l i (i + 7)) (py_range 0 (length l) 7).

(** [min(l)] and [max(l)] *)
Definition py_min (l : list Z) : result Z :=
  match l with
  | [] => Raise ValueError
  | x :: l' => Ok (fold_left Z.min l' x)
  end.

Definition py_max (l : list Z) : result Z :=
  match l with
  | [] => Raise ValueError
  | x :: l' => Ok (fold_left Z.max l' x)
  end.

(** ** Outbound effects and the world *)

Record embed : Type := Embed {
  title : string;
  description : option string;
  color : Z;
  thumbnail : option string;
  image : option string;
  fields : list (string * string * bool);
  footer : option string;
  link : option string;
}.

(** [discord.Embed(title=..., description=..., color=...)] and its setters *)
Definition new_embed (title : string) (description : option string)
    (color : Z) : embed :=
  Embed title description color None None [] None None.

Definition add_field (e : embed) (name value : string) (inline : bool) : embed :=
  Embed (title e) (description e) (color e) (thumbnail e) (image e)
        (fields e ++ [(name, value, inline)]) (footer e) (link e).

Definition set_color (e : embed) (c : Z) : embed :=
  Embed (title e) (description e) c (thumbnail e) (image e) (fields e) (footer e)
        (link e).

Definition set_thumbnail (e : embed) (url : string) : embed :=
  Embed (title e) (description e) (color e) (Some url) (image e) (fields e)
        (footer e) (link e).

Definition set_footer (e : embed) (text : string) : embed :=
  Embed (title e) (description e) (color e) (thumbnail e) (image e) (fields e)
        (Some text) (link e).

Definition set_link (e : embed) (url : string) : embed :=
  Embed (title e) (description e) (color e) (thumbnail e) (image e) (fields e)
        (footer e) (Some url).

Inductive message : Type :=
| Text (content : string)
| Rich (e : embed)
| RichFile (e : embed) (filename : string).

Inductive event : Type :=
| Defer
| HttpGet (url : string)
| FollowupSend (m : message)
| ResponseSend (m : message).

Record world : Type := World {
  cache : gmap string (json * Q);
  now_us : Z;
  trace : list event;
}.

Definition M (A : Type) : Type := world -> result A * world.

Definition ret {A} (a : A) : M A := fun w => (Ok a, w).
Definition bind {A B} (m : M A) (k : A -> M B) : M B :=
  fun w => match m w with
           | (Ok a, w') => k a w'
           | (Raise e, w') => (Raise e, w')
           end.
Definition lift {A} (r : result A) : M A := fun w => (r, w).

(** [try: body  except <catches> as e: handler e] *)
Definition try_except {A} (body : M A) (catches : exn -> bool)
    (handler : exn -> M A) : M A :=
  fun w => match body w with
           | (Ok a, w') => (Ok a, w')
           | (Raise e, w') => if catches e then handler e w' else (Raise e, w')
           end.

Declare Scope py_scope.
Delimit Scope py_scope with py.
Notation "x <- m ;; k" := (bind m (fun x => k))
  (at level 100, m at next level, right associativity) : py_scope.
Notation "x <~ r ;; k" := (result_bind r (fun x => k))
  (at level 100, r at next level, right associativity) : py_scope.
Notation "m ;;; k" := (bind m (fun _ => k))
  (at level 100, right associativity) : py_scope.
Local Open Scope py_scope.

Definition emit (e : event) : M unit :=
  fun w => (Ok tt, World (cache w) (now_us w) (trace w ++ [e])).

(** [datetime.datetime.now().timestamp()]: seconds since the epoch *)
Definition timestamp_of (us : Z) : Q := us # 1000000.
Definition now_timestamp : M Q := fun w => (Ok (timestamp_of (now_us w)), w).
Definition utc_now : M Z := fun w => (Ok (now_us w), w).

Definition cache_lookup (url : string) : M (option (json * Q)) :=
  fun w => (Ok (cache w !! url), w).
Definition cache_store (url : string) (entry : json * Q) : M unit :=
  fun w => (Ok tt, World (<[url := entry]> (cache w)) (now_us w) (trace w)).

(** ** The environment of the bot *)

Class Env : Type := {
  (** [str.lower] *)
  lower : string -> string;
  (** [int(s)] for a text [s]: the integer it denotes, or [ValueError] *)
  int_of_str : string -> result Z;
  (** [float(s)] for a text [s], or [ValueError] *)
  float_of_str : string -> result Q;
  (** [datetime.strftime]: the instant (microseconds since the epoch)
      written in the given format *)
  strftime : string -> Z -> string;
  (** [datetime.fromisoformat(s)] made aware with [pytz.utc.localize]:
      the instant in microseconds since the epoch, or [ValueError] *)
  fromisoformat : string -> result Z;
  (** The chart of the driver standings (lines 252 to 347 of the source):
      the figure drawn with matplotlib and saved as
      [driver_standings.png], and the embed that carries it, with the
      three leaders as fields. The result is that embed, or the exception
      that one of these steps raised. *)
  driver_standings_chart : Z -> json -> result embed;
  (** The same for the constructor standings and [team_standings.png]
      (lines 413 to 481) *)
  team_standings_chart : Z -> json -> result embed;
  (** The outcome of [requests.get(url).json()]: the decoded body, or the
      exception raised by the transport, the status check or the decoder *)
  requests_get_json : string -> result json;
}.

Section Handlers.
Context {env : Env}.

Definition http_get (url : string) : M json :=
  emit (HttpGet url) ;;; lift (requests_get_json url).

(** ** Response cache *)

Definition CACHE_EXPIRY : Q := 3600.

Definition get_cached_response (url : string) (force_refresh : bool) : M json :=
  current_time <- now_timestamp ;;
  entry <- cache_lookup url ;;
  let refresh : M json :=
    response <- http_get url ;;
    cache_store url (response, current_time) ;;;
    ret response in
  match entry with
  | Some (cached_data, timestamp) =>
      if negb force_refresh then
        if Qltb (current_time - timestamp) CACHE_EXPIRY then ret cached_data
        else refresh
      else refresh
  | None => refresh
  end.

(** *** The two outcomes of a lookup *)

Definition after_fetch (w : world) (url : string) : world :=
  World (cache w) (now_us w) (trace w ++ [HttpGet url]).

Definition after_store (w : world) (url : string) (payload : json) : world :=
  World (<[url := (payload, timestamp_of (now_us w))]> (cache w)) (now_us w)
        (trace w ++ [HttpGet url]).

(** An entry that [get_cached_response] may serve: present, and younger
    than [CACHE_EXPIRY] at the instant of the call. *)
Definition fresh_entry (w : world) (url : string) (payload : json) : Prop :=
  exists fetched_at : Q,
    cache w !! url = Some (payload, fetched_at) /\
    (timestamp_of (now_us w) - fetched_at < CACHE_EXPIRY)%Q.

(** ** Colour resolver *)

Definition TEAM_COLORS : list (string * Z) := [
  ("Red Bull", 0x0600EF);
  ("Ferrari", 0xDC0000);
  ("Mercedes", 0x00D2BE);
  ("McLaren", 0xFF8700);
  ("Aston Martin", 0x006F62);
  ("Alpine", 0x0090FF);
  ("Williams", 0x005AFF);
  ("AlphaTauri", 0x2B4562);
  ("Alfa Romeo", 0x900000);
  ("Haas F1 Team", 0xFFFFFF);
  ("Racing Point", 0xF596C8);
  ("Renault", 0xFFF500);
  ("Toro Rosso", 0x469BFF);
  ("Sauber", 0x9B0000);
  ("Force India", 0xFF5F0F);
  ("Manor Marussia", 0x6E0000);
  ("Lotus F1", 0x000000);
  ("Marussia", 0x6E0000);
  ("Caterham", 0x006C00);
  ("HRT", 0x686868);
  ("Virgin", 0x323232);
  ("Brawn", 0xF0F0F0);
  ("Honda", 0x006633);
  ("Super Aguri", 0xE20B00);
  ("BMW Sauber", 0x6CD3BF);
  ("Spyker", 0xF24013);
  ("Midland", 0x9E0000);
  ("Jordan", 0xF9CB46);
  ("Jaguar", 0x358C75);
  ("BAR", 0xFDB000);
  ("Arrows", 0xFF8000);
  ("Minardi", 0x000000);
  ("Prost", 0x00005F);
  ("Benetton", 0x00841F);
  ("Stewart", 0xFFFFFF);
  ("Tyrrell", 0x3A36DB);
  ("Footwork", 0xFF8000);
  ("Ligier", 0x00007D);
  ("Simtek", 0xFFFFFF);
  ("Larrousse", 0xFFFFFF);
  ("Brabham", 0x487890);
  ("Fondmetal", 0xFFFFFF);
  ("March", 0x8D0060);
  ("Forti", 0xFF7F00);
  ("Pacific", 0x006633);
  ("RB F1 Team", 0x0600EF);
  ("Racing Bulls", 0x0600EF);
  ("Haas", 0xFFFFFF);
  ("AlphaTauri RB", 0x0600EF)
].

Definition DEFAULT_COLOR : Z := 0xFF5733.

(** The test of the partial-match loop *)
Definition partial_match (team team_name : string) : bool :=
  str_in (lower team) (lower team_name) || str_in (lower team_name) (lower team).

(** [for team, color in items: if ...: return color] and the final
    [return DEFAULT_COLOR] *)
Fixpoint scan_colors (team_name : string) (items : list (string * Z)) : Z :=
  match items with
  | [] => DEFAULT_COLOR
  | (team, color) :: rest =>
      if partial_match team team_name then color
      else scan_colors team_name rest
  end.

(** [team_name] is [None] or a text *)
Definition get_team_color (team_name : option string) : Z :=
  match team_name with
  | None => DEFAULT_COLOR
  | Some EmptyString => DEFAULT_COLOR
  | Some name =>
      match assoc name TEAM_COLORS with
      | Some color => color
      | None => scan_colors name TEAM_COLORS
      end
  end.

(** The match of the specification: the entry's name contains the input,
    or is contained in it, both compared in lower case. *)
Definition matches_ignoring_case (team team_name : string) : Prop :=
  occurs_in (lower team) (lower team_name) \/
  occurs_in (lower team_name) (lower team).

(** ** Rank bar *)

Definition create_progress_bar (position : string) (total_drivers width : Z)
    : result string :=
  result_bind (int_of_str position) (fun position =>
  if total_drivers - 1 =? 0 then Raise ZeroDivisionError else
  let progress :=
    max0 (inject_Z (total_drivers - position) / inject_Z (total_drivers - 1)) in
  let filled := Qtrunc (inject_Z width * progress) in
  let progress_bar :=
    str_mul "█" filled +:+ str_mul "░" (width - filled) in
  Ok progress_bar).




(** ** Race results *)

(** One entry of [race_data["Results"]], read in the order of the loop
    body. The fields that the API documents as texts are read with
    [as_str]. *)
Record result_row : Type := ResultRow {
  position : string;
  position_int : Z;
  driver_name : string;
  team : string;
  team_color : Z;
  fastest_lap : option (string * json);
  time_or_status : string;
}.

Definition read_result (driver : json) : result result_row :=
  position <~ get_str driver "position" ;;
  position_int <~ int_of_str position ;;
  d <~ getitem driver "Driver" ;;
  driver_id <~ getitem d "driverId" ;;
  given <~ get_str d "givenName" ;;
  family <~ get_str d "familyName" ;;
  let name := given +:+ " " +:+ family in
  c <~ getitem driver "Constructor" ;;
  team <~ get_str c "name" ;;
  let team_color := get_team_color (Some team) in
  has_lap <~ contains_key driver "FastestLap" ;;
  lap <~ (if has_lap : bool then
            fl <~ getitem driver "FastestLap" ;;
            t <~ getitem fl "Time" ;;
            lap_time <~ get_str t "time" ;;
            lap_number <~ getitem fl "lap" ;;
            lap_rank <~ getitem fl "rank" ;;
            Ok (Some (lap_time, lap_rank))
          else Ok None) ;;
  has_time <~ contains_key driver "Time" ;;
  has_status <~ contains_key driver "status" ;;
  time_or_status <~ (if has_time : bool then
                       t <~ getitem driver "Time" ;; get_str t "time"
                     else if has_status : bool then
                       st <~ get_str driver "status" ;; Ok ("⚠️ " +:+ st)
                     else Ok "N/A") ;;
  Ok (ResultRow position position_int name team team_color lap time_or_status).

Record loop_state : Type := LoopState {
  podium_text : string;
  results : list (Z * string * Z);
  fastest_lap_driver : option string;
  fastest_lap_time : option string;
}.

Definition MEDALS : list string := ["🥇"; "🥈"; "🥉"].

(** The line that a podium row adds to [podium_text] *)
Definition podium_line (medal : string) (row : result_row) : string :=
  medal +:+ " **" +:+ driver_name row +:+ "** (" +:+ team row +:+ ")" +:+ nl.

(** The rest of the loop body, once the entry is read. *)
Definition add_result (total_drivers : Z) (st : loop_state) (row : result_row)
    : result loop_state :=
  let (lap_driver, lap_time) :=
    match fastest_lap row with
    | Some (lap_time, JStr "1") => (Some (driver_name row), Some lap_time)
    | _ => (fastest_lap_driver st, fastest_lap_time st)
    end in
  podium <~ (if position_int row <=? 3 then
               medal <~ list_getitem MEDALS (position_int row - 1) ;;
               Ok (podium_text st +:+ podium_line medal row)
             else Ok (podium_text st)) ;;
  progress <~ create_progress_bar (position row) total_drivers 20 ;;
  let result_entry :=
    "**" +:+ position row +:+ ".** " +:+ driver_name row +:+ " (" +:+ team row
    +:+ ")" +:+ nl +:+ "⏱️ " +:+ time_or_status row +:+ nl +:+ progress +:+ nl in
  Ok (LoopState podium
        (results st ++ [(position_int row, result_entry, team_color row)])
        lap_driver lap_time).

(** [for driver in race_data["Results"]: ...] *)
Fixpoint process_results (total_drivers : Z) (drivers : list json)
    (st : loop_state) : result loop_state :=
  match drivers with
  | [] => Ok st
  | driver :: rest =>
      row <~ read_result driver ;;
      st' <~ add_result total_drivers st row ;;
      process_results total_drivers rest st'
  end.

(** The same loop over entries that are already read. *)
Fixpoint add_results (total_drivers : Z) (rows : list result_row)
    (st : loop_state) : result loop_state :=
  match rows with
  | [] => Ok st
  | row :: rest =>
      st' <~ add_result total_drivers st row ;;
      add_results total_drivers rest st'
  end.

(** [results.sort(key=lambda x: x[0])]: a stable sort on the position *)
Definition sort_key (r : Z * string * Z) : Z := fst (fst r).

Definition sort_by_position (l : list (Z * string * Z)) : list (Z * string * Z) :=
  sort_by sort_key l.

(** The embed of one page: every row adds a field and sets the colour. *)
Definition page_embed (chunk : list (Z * string * Z)) : result embed :=
  let positions := map sort_key chunk in
  start_pos <~ py_min positions ;;
  end_pos <~ py_max positions ;;
  let result_embed :=
    new_embed ("Positions " +:+ str_of_Z start_pos +:+ "-" +:+ str_of_Z end_pos)
              None 0x1E90FF in
  Ok (fold_left (fun e r => set_color (add_field e zero_width_space (snd (fst r)) true)
                                      (snd r))
                chunk result_embed).

Fixpoint send_pages (pages : list (list (Z * string * Z))) : M unit :=
  match pages with
  | [] => ret tt
  | chunk :: rest =>
      result_embed <- lift (page_embed chunk) ;;
      emit (FollowupSend (Rich result_embed)) ;;;
      send_pages rest
  end.

Definition footer_text (now : Z) : string :=
  "Data provided by Ergast API • " +:+ strftime "%Y-%m-%d %H:%M:%S" now.

Definition f1_results (year round : Z) : M unit :=
  emit Defer ;;;
  let url := "https://ergast.com/api/f1/" +:+ str_of_Z year +:+ "/"
             +:+ str_of_Z round +:+ "/results.json" in
  response <- get_cached_response url false ;;
  try_except
    (race_data <- lift (mrdata <~ getitem response "MRData" ;;
                        table <~ getitem mrdata "RaceTable" ;;
                        races <~ getitem table "Races" ;;
                        getitem0 races) ;;
     race_name <- lift (get_str race_data "raceName") ;;
     circuit <- lift (c <~ getitem race_data "Circuit" ;; get_str c "circuitName") ;;
     country <- lift (c <~ getitem race_data "Circuit" ;;
                      l <~ getitem c "Location" ;; get_str l "country") ;;
     date <- lift (get_str race_data "date") ;;
     let main_embed :=
       new_embed ("🏁 " +:+ race_name +:+ " " +:+ str_of_Z year)
         (Some ("📍 **Circuit:** " +:+ circuit +:+ ", " +:+ country +:+ nl
                +:+ "📅 **Date:** " +:+ date))
         0xFF5733 in
     let main_embed :=
       set_thumbnail main_embed
         ("https://via.placeholder.com/150?text=" +:+ replace_char " " "+" circuit) in
     drivers <- lift (r <~ getitem race_data "Results" ;; as_list r) ;;
     let total_drivers := Z.of_nat (length drivers) in
     st <- lift (process_results total_drivers drivers (LoopState "" [] None None)) ;;
     let main_embed :=
       if nonempty (podium_text st)
       then add_field main_embed "🏆 Podium" (podium_text st) false
       else main_embed in
     let main_embed :=
       match fastest_lap_driver st, fastest_lap_time st with
       | Some lap_driver, Some lap_time =>
           if nonempty lap_driver && nonempty lap_time
           then add_field main_embed "⚡ Fastest Lap"
                  (lap_driver +:+ " - " +:+ lap_time) false
           else main_embed
       | _, _ => main_embed
       end in
     now <- utc_now ;;
     let main_embed := set_footer main_embed (footer_text now) in
     emit (FollowupSend (Rich main_embed)) ;;;
     send_pages (chunks (sort_by_position (results st))))
    index_or_key_error
    (fun e =>
       emit (FollowupSend (Text
         ("❌ Could not fetch race results. Please check the year and round number. Error: "
          +:+ str_exn e)))).

Definition page_sent (chunk : list (Z * string * Z)) (e : embed) : Prop :=
  page_embed chunk = Ok e /\ length (fields e) = length chunk.

(** *** Podium *)

(** The entries of the payload, all read before the loop runs. *)
Fixpoint read_results (drivers : list json) : result (list result_row) :=
  match drivers with
  | [] => Ok []
  | driver :: rest =>
      row <~ read_result driver ;;
      rows <~ read_results rest ;;
      Ok (row :: rows)
  end.


Definition medal_of (p : Z) : string :=
  if p =? 1 then "🥇" else if p =? 2 then "🥈" else "🥉".




(** ** Next event *)

(** [datetime.timedelta], normalised as Python keeps it:
    [0 <= seconds < 86400] and [0 <= microseconds < 1000000]. *)
Record timedelta : Type := Timedelta {
  days : Z;
  seconds : Z;
  microseconds : Z;
}.

(** The difference of two instants *)
Definition timedelta_of_us (us : Z) : timedelta :=
  Timedelta (us / 86400000000) (us mod 86400000000 / 1000000) (us mod 1000000).

Definition total_seconds (d : timedelta) : Q :=
  ((days d * 86400 + seconds d) * 1000000 + microseconds d) # 1000000.

Definition countdown_text (race_datetime now : Z) : string :=
  let time_diff := timedelta_of_us (race_datetime - now) in
  if Qltb 0 (total_seconds time_diff) then
    let hours := seconds time_diff / 3600 in
    let remainder := seconds time_diff mod 3600 in
    let minutes := remainder / 60 in
    let secs := remainder mod 60 in
    "🕒 **Countdown:** " +:+ str_of_Z (days time_diff) +:+ "d "
    +:+ str_of_Z hours +:+ "h " +:+ str_of_Z minutes +:+ "m "
    +:+ str_of_Z secs +:+ "s"
  else "🏁 **Race has started or completed**".

Definition SESSION_TYPES : list string :=
  ["FirstPractice"; "SecondPractice"; "ThirdPractice"; "Qualifying"; "Sprint"].

Definition session_name (session_type : string) : string :=
  if String.eqb session_type "FirstPractice" then "Practice 1"
  else if String.eqb session_type "SecondPractice" then "Practice 2"
  else if String.eqb session_type "ThirdPractice" then "Practice 3"
  else session_type.

(** [date] and [time] of a session or of the race, as one instant *)
Definition read_datetime (d : json) : result Z :=
  date <~ get_str d "date" ;;
  time <~ (t <~ getitem d "time" ;; t <~ str_receiver t ;; Ok (remove_char "Z" t)) ;;
  fromisoformat (date +:+ "T" +:+ time).

Fixpoint read_sessions (race : json) (types : list string)
    (sessions : list (string * Z)) : result (list (string * Z)) :=
  match types with
  | [] => Ok sessions
  | session_type :: rest =>
      present <~ contains_key race session_type ;;
      if present : bool then
        session_data <~ getitem race session_type ;;
        session_datetime <~ read_datetime session_data ;;
        read_sessions race rest
          (sessions ++ [(session_name session_type, session_datetime)])
      else read_sessions race rest sessions
  end.

(** The embed of the reply, before its footer: the body of the [try]
    block up to the session fields, with [now] the reading of the clock. *)
Definition next_event_embed (response : json) (now : Z) : result embed :=
  race <~ (mrdata <~ getitem response "MRData" ;;
           table <~ getitem mrdata "RaceTable" ;;
           races <~ getitem table "Races" ;;
           getitem0 races) ;;
  race_name <~ get_str race "raceName" ;;
  circuit <~ (c <~ getitem race "Circuit" ;; get_str c "circuitName") ;;
  country <~ (c <~ getitem race "Circuit" ;;
              l <~ getitem c "Location" ;; get_str l "country") ;;
  locality <~ (c <~ getitem race "Circuit" ;;
               l <~ getitem c "Location" ;; get_str l "locality") ;;
  race_datetime <~ read_datetime race ;;
  let countdown := countdown_text race_datetime now in
  sessions <~ read_sessions race SESSION_TYPES [] ;;
  let sessions := sessions ++ [("Race", race_datetime)] in
  location <~ (c <~ getitem race "Circuit" ;; getitem c "Location") ;;
  lat <~ dict_get location "lat" (JStr "") ;;
  long <~ dict_get location "long" (JStr "") ;;
  let e :=
    new_embed ("📅 Next F1 Event: " +:+ race_name)
      (Some (countdown +:+ nl +:+ nl +:+ "**📍 Circuit:** " +:+ circuit +:+ ", "
             +:+ locality +:+ ", " +:+ country +:+ " 🏎️" +:+ nl))
      0x00FF00 in
  let e :=
    if truthy lat && truthy long
    then set_thumbnail e ("https://via.placeholder.com/200x100?text="
                          +:+ replace_char " " "+" circuit)
    else e in
  Ok (fold_left
        (fun e session =>
           let time_str := strftime "%Y-%m-%d %H:%M UTC" (snd session) in
           let status := if snd session <? now then "✅" else "⏳" in
           add_field e (status +:+ " " +:+ fst session) time_str true)
        sessions e).

Definition NEXT_URL : string := "https://ergast.com/api/f1/current/next.json".

(** The [try] statement of [f1_next], for the payload [response]. *)
Definition next_event_reply (response : json) : M unit :=
  try_except
    (now <- utc_now ;;
     e <- lift (next_event_embed response now) ;;
     stamp <- utc_now ;;
     emit (FollowupSend (Rich (set_footer e (footer_text stamp)))))
    index_or_key_error
    (fun e =>
       emit (FollowupSend (Text
         ("❌ Could not fetch the next race details. Error: " +:+ str_exn e)))).

Definition f1_next : M unit :=
  emit Defer ;;;
  response <- get_cached_response NEXT_URL true ;;
  next_event_reply response.

(** ** Driver standings *)

Definition full_name (driver : json) : result string :=
  d <~ getitem driver "Driver" ;;
  given <~ get_str d "givenName" ;;
  family <~ get_str d "familyName" ;;
  Ok (given +:+ " " +:+ family).

(** The loop over the three leaders: the first one with a title adds a
    field and ends the loop. *)
Fixpoint championship_loop (drivers : list json) (e : embed) : M embed :=
  match drivers with
  | [] => ret e
  | driver :: rest =>
      driver_id <- lift (d <~ getitem driver "Driver" ;; get_str d "driverId") ;;
      let championships_url :=
        "https://ergast.com/api/f1/drivers/" +:+ driver_id +:+ "/driverStandings/1.json" in
      championships_data <- get_cached_response championships_url false ;;
      championships <- lift (m <~ getitem championships_data "MRData" ;;
                             t <~ get_str m "total" ;; int_of_str t) ;;
      if 0 <? championships then
        name <- lift (full_name driver) ;;
        ret (add_field e "🏆 Championships"
               (name +:+ ": " +:+ str_of_Z championships) false)
      else championship_loop rest e
  end.

Definition first_team (driver : json) : result string :=
  constructors <~ getitem driver "Constructors" ;;
  if truthy constructors then
    c <~ getitem0 constructors ;; get_str c "name"
  else Ok "Unknown Team".

Fixpoint driver_lines (drivers : list json) : result (list string) :=
  match drivers with
  | [] => Ok []
  | driver :: rest =>
      position <~ get_str driver "position" ;;
      name <~ full_name driver ;;
      points <~ get_str driver "points" ;;
      team <~ first_team driver ;;
      lines <~ driver_lines rest ;;
      Ok (("**#" +:+ position +:+ "** " +:+ name +:+ " (" +:+ team +:+ ") - "
           +:+ points +:+ " pts 🏅") :: lines)
  end.

Definition catch_all (e : exn) : bool := true.

Definition f1_standings_drivers (year : Z) : M unit :=
  emit Defer ;;;
  let url := "https://ergast.com/api/f1/" +:+ str_of_Z year +:+ "/driverStandings.json" in
  response <- get_cached_response url false ;;
  let standings : result json :=
    mrdata <~ getitem response "MRData" ;;
    table <~ getitem mrdata "StandingsTable" ;;
    lists <~ getitem table "StandingsLists" ;;
    first <~ getitem0 lists ;;
    getitem first "DriverStandings" in
  try_except
    (standings <- lift standings ;;
     e <- lift (driver_standings_chart year standings) ;;
     e <- try_except
            (leaders <- lift (as_list standings) ;;
             championship_loop (take 3 leaders) e)
            catch_all (fun _ => ret e) ;;
     now <- utc_now ;;
     emit (FollowupSend (RichFile (set_footer e (footer_text now))
                                  "driver_standings.png")))
    catch_all
    (fun _ =>
       try_except
         (standings <- lift (match standings with
                             | Ok s => Ok s
                             | Raise _ => Raise (NameError "standings")
                             end) ;;
          drivers <- lift (as_list standings) ;;
          lines <- lift (driver_lines (take 10 drivers)) ;;
          let fallback_embed :=
            new_embed ("🏎️ " +:+ str_of_Z year +:+ " Driver Standings")
                      (Some (String.concat nl lines)) 0x1E90FF in
          emit (FollowupSend (Rich (set_footer fallback_embed
                                      "Data provided by Ergast API"))))
         index_or_key_error
         (fun e =>
            emit (FollowupSend (Text
              ("❌ Could not fetch driver standings. Please check the year. Error: "
               +:+ str_exn e))))).

(** ** Constructor standings *)

(** [min(100, max(0, x))] *)
Definition clamp_percentage (x : Q) : Q :=
  let m := if Qltb 0 x then x else 0%Q in
  if Qltb m 100 then m else 100%Q.

Definition points_bar (points : string) (max_points : Q) : string :=
  let percentage :=
    match float_of_str points with
    | Ok points_float =>
        if Qeq_bool max_points 0 then 0%Q
        else clamp_percentage (points_float / max_points * 100)
    | Raise _ => 0%Q
    end in
  str_mul "█" (Qtrunc (percentage / 5)) +:+ str_mul "░" (20 - Qtrunc (percentage / 5)).

Fixpoint team_lines (teams : list json) (max_points : Q) : result (list string) :=
  match teams with
  | [] => Ok []
  | team :: rest =>
      position <~ get_str team "position" ;;
      name <~ (c <~ getitem team "Constructor" ;; get_str c "name") ;;
      points <~ get_str team "points" ;;
      lines <~ team_lines rest max_points ;;
      Ok (("**#" +:+ position +:+ "** " +:+ name +:+ " - " +:+ points +:+ " pts"
           +:+ nl +:+ points_bar points max_points) :: lines)
  end.

Definition leader_points (standings : json) : Q :=
  match (first <~ getitem0 standings ;;
         points <~ get_str first "points" ;; float_of_str points) with
  | Ok max_points => max_points
  | Raise _ => 100%Q
  end.

Definition f1_standings_teams (year : Z) : M unit :=
  emit Defer ;;;
  let url := "https://ergast.com/api/f1/" +:+ str_of_Z year
             +:+ "/constructorStandings.json" in
  response <- get_cached_response url false ;;
  try_except
    (standings <- lift (mrdata <~ getitem response "MRData" ;;
                        table <~ getitem mrdata "StandingsTable" ;;
                        lists <~ getitem table "StandingsLists" ;;
                        first <~ getitem0 lists ;;
                        getitem first "ConstructorStandings") ;;
     try_except
       (e <- lift (team_standings_chart year standings) ;;
        now <- utc_now ;;
        emit (FollowupSend (RichFile (set_footer e (footer_text now))
                                     "team_standings.png")))
       catch_all
       (fun _ =>
          let max_points := leader_points standings in
          teams <- lift (as_list standings) ;;
          lines <- lift (team_lines teams max_points) ;;
          let e :=
            new_embed ("🏁 " +:+ str_of_Z year +:+ " Constructor Standings")
                      (Some (String.concat (nl +:+ nl) (take 10 lines))) 0xFFD700 in
          now <- utc_now ;;
          emit (FollowupSend (Rich (set_footer e (footer_text now))))))
    index_or_key_error
    (fun e =>
       emit (FollowupSend (Text
         ("❌ Could not fetch constructor standings. Please check the year. Error: "
          +:+ str_exn e)))).

(** ** Driver lookup *)

Definition driver_url (name : string) : string :=
  "https://ergast.com/api/f1/drivers/" +:+ name +:+ ".json".

Definition driver_embed (response : json) : result embed :=
  driver <~ (mrdata <~ getitem response "MRData" ;;
             table <~ getitem mrdata "DriverTable" ;;
             drivers <~ getitem table "Drivers" ;;
             getitem0 drivers) ;;
  given <~ get_str driver "givenName" ;;
  family <~ get_str driver "familyName" ;;
  nationality <~ get_str driver "nationality" ;;
  birth_date <~ get_str driver "dateOfBirth" ;;
  wiki_url <~ get_str driver "url" ;;
  let e := set_link (new_embed ("🏎️ " +:+ given +:+ " " +:+ family) None 0x3498DB)
                    wiki_url in
  let e := add_field e "🌍 Nationality" nationality true in
  let e := add_field e "🎂 Birth Date" birth_date true in
  let e := add_field e "📖 More Info" ("[Wikipedia](" +:+ wiki_url +:+ ")") false in
  Ok (set_footer e "Data provided by Ergast API").

Definition f1_driver (name : string) : M unit :=
  let url := driver_url name in
  response <- http_get url ;;
  try_except
    (e <- lift (driver_embed response) ;;
     emit (ResponseSend (Rich e)))
    index_or_key_error
    (fun _ =>
       emit (ResponseSend (Text
         "❌ Could not find the driver. Check the name and try again."))).

(** ** Acknowledgement and cache discipline of the handlers *)

(** An entry of the cache that holds what the network returns for its key *)
Definition cached (w : world) (url : string) (payload : json) : Prop :=
  exists fetched_at : Q, cache w !! url = Some (payload, fetched_at).

(** A computation that only appends to the trace and whose successful
    requests all end up in the cache, and stay there. *)
Definition cache_backed {A} (m : M A) : Prop :=
  forall w, exists evs,
    trace (snd (m w)) = trace w ++ evs /\
    forall url payload,
      requests_get_json url = Ok payload ->
      In (HttpGet url) evs \/ cached w url payload ->
      cached (snd (m w)) url payload.

(** A handler that acknowledges first and fetches through the cache: its
    first effect is [Defer], and every request it has sent that yields a
    payload has that payload in the cache when the handler ends. *)
Definition deferred_and_cached (h : M unit) : Prop :=
  forall w, exists evs,
    trace (snd (h w)) = trace w ++ Defer :: evs /\
    forall url payload,
      requests_get_json url = Ok payload -> In (HttpGet url) evs ->
      cached (snd (h w)) url payload.

End Handlers.

(** ** Parts of the handlers, named for the statements of Part II *)

Section HandlerParts.
Context {env : Env}.

Definition results_url (year round : Z) : string :=
  "https://ergast.com/api/f1/" +:+ str_of_Z year +:+ "/" +:+ str_of_Z round
  +:+ "/results.json".

(** [response["MRData"]["RaceTable"]["Races"][0]] *)
Definition race_of (response : json) : result json :=
  mrdata <~ getitem response "MRData" ;;
  table <~ getitem mrdata "RaceTable" ;;
  races <~ getitem table "Races" ;;
  getitem0 races.

(** The body of the [try] block of [f1_results] up to its first message:
    the summary embed and the detail rows, or the exception raised on the
    way. [now] is the reading of the clock for the footer. *)
Definition race_summary (year : Z) (response : json) (now : Z)
    : result (embed * list (Z * string * Z)) :=
  race_data <~ race_of response ;;
  race_name <~ get_str race_data "raceName" ;;
  circuit <~ (c <~ getitem race_data "Circuit" ;; get_str c "circuitName") ;;
  country <~ (c <~ getitem race_data "Circuit" ;;
              l <~ getitem c "Location" ;; get_str l "country") ;;
  date <~ get_str race_data "date" ;;
  let main_embed :=
    new_embed ("🏁 " +:+ race_name +:+ " " +:+ str_of_Z year)
      (Some ("📍 **Circuit:** " +:+ circuit +:+ ", " +:+ country +:+ nl
             +:+ "📅 **Date:** " +:+ date))
      0xFF5733 in
  let main_embed :=
    set_thumbnail main_embed
      ("https://via.placeholder.com/150?text=" +:+ replace_char " " "+" circuit) in
  drivers <~ (r <~ getitem race_data "Results" ;; as_list r) ;;
  let total_drivers := Z.of_nat (length drivers) in
  st <~ process_results total_drivers drivers (LoopState "" [] None None) ;;
  let main_embed :=
    if nonempty (podium_text st)
    then add_field main_embed "🏆 Podium" (podium_text st) false
    else main_embed in
  let main_embed :=
    match fastest_lap_driver st, fastest_lap_time st with
    | Some lap_driver, Some lap_time =>
        if nonempty lap_driver && nonempty lap_time
        then add_field main_embed "⚡ Fastest Lap"
               (lap_driver +:+ " - " +:+ lap_time) false
        else main_embed
    | _, _ => main_embed
    end in
  Ok (set_footer main_embed (footer_text now), results st).

(** The entries of the payload of a race *)
Definition race_entries (response : json) : result (list json) :=
  race_data <~ race_of response ;;
  r <~ getitem race_data "Results" ;;
  as_list r.

Definition results_error (e : exn) : message :=
  Text ("❌ Could not fetch race results. Please check the year and round number. Error: "
        +:+ str_exn e).

(** The lap time of a row that holds the fastest lap of the race *)
Definition rank1_lap (row : result_row) : option string :=
  match fastest_lap row with
  | Some (lap_time, JStr "1") => Some lap_time
  | _ => None
  end.

(** The detail entry of a row, given its bar *)
Definition result_entry (row : result_row) (progress : string) : string :=
  "**" +:+ position row +:+ ".** " +:+ driver_name row +:+ " (" +:+ team row
  +:+ ")" +:+ nl +:+ "⏱️ " +:+ time_or_status row +:+ nl +:+ progress +:+ nl.

(** The field that a row of a page adds *)
Definition page_field (r : Z * string * Z) : string * string * bool :=
  (zero_width_space, snd (fst r), true).



Definition driver_standings_url (year : Z) : string :=
  "https://ergast.com/api/f1/" +:+ str_of_Z year +:+ "/driverStandings.json".

(** [response["MRData"]["StandingsTable"]["StandingsLists"][0]["DriverStandings"]] *)
Definition driver_standings_of (response : json) : result json :=
  mrdata <~ getitem response "MRData" ;;
  table <~ getitem mrdata "StandingsTable" ;;
  lists <~ getitem table "StandingsLists" ;;
  first <~ getitem0 lists ;;
  getitem first "DriverStandings".

Definition team_standings_url (year : Z) : string :=
  "https://ergast.com/api/f1/" +:+ str_of_Z year +:+ "/constructorStandings.json".

(** [response["MRData"]["StandingsTable"]["StandingsLists"][0]["ConstructorStandings"]] *)
Definition team_standings_of (response : json) : result json :=
  mrdata <~ getitem response "MRData" ;;
  table <~ getitem mrdata "StandingsTable" ;;
  lists <~ getitem table "StandingsLists" ;;
  first <~ getitem0 lists ;;
  getitem first "ConstructorStandings".

Definition team_standings_error (e : exn) : message :=
  Text ("❌ Could not fetch constructor standings. Please check the year. Error: "
        +:+ str_exn e).

(** What the loop over the leaders may do to the embed *)
Definition with_championships (e e' : embed) : Prop :=
  e' = e \/
  exists name championships,
    0 < championships /\
    e' = add_field e "🏆 Championships"
           (name +:+ ": " +:+ str_of_Z championships) false.

Definition driver_not_found : message :=
  Text "❌ Could not find the driver. Check the name and try again.".

End HandlerParts.

(** The events of a trace that are requests, and those that are messages *)
Definition is_request (e : event) : bool :=
  match e with HttpGet _ => true | _ => false end.

Definition is_message (e : event) : bool :=
  match e with FollowupSend _ | ResponseSend _ => true | _ => false end.

(** The world after the acknowledgement *)
Definition acknowledged (w : world) : world :=
  World (cache w) (now_us w) (trace w ++ [Defer]).

(** The world after one more event *)
Definition after_event (w : world) (e : event) : world :=
  World (cache w) (now_us w) (trace w ++ [e]).

(** [CACHE_EXPIRY] in microseconds *)
Definition CACHE_EXPIRY_US : Z := 3600000000.

(** ** Concrete inputs *)

Definition demo_strftime (format : string) (instant : Z) : string :=
  format +:+ "@" +:+ str_of_Z instant.

Definition demo_fromisoformat (s : string) : result Z := Raise ValueError.

(** A network that answers every request with the same body. *)
Definition net_ok (body : json) (url : string) : result json := Ok body.

(** A network that fails every request. *)
Definition net_down (url : string) : result json := Raise (RequestError url).

(** The environment of the runs below: ASCII lower case, decimal
    numerals, and the network given as argument. *)
Definition demo_env (net : string -> result json) : Env := {|
  lower := ascii_lower;
  int_of_str := decimal_int;
  float_of_str := fun _ => Raise ValueError;
  strftime := demo_strftime;
  fromisoformat := demo_fromisoformat;
  driver_standings_chart := fun _ _ => Raise ValueError;
  team_standings_chart := fun _ _ => Raise ValueError;
  requests_get_json := net;
|}.

Definition T0 : Z := 1700000000000000.

(** A cache filled at [T0] with one entry for the key ["k"]. *)
Definition cache_at_T0 : gmap string (json * Q) :=
  {[ "k" := (JStr "stored", timestamp_of T0) ]}.

(** One microsecond before the entry expires, and the instant it does. *)
Definition w_fresh : world := World cache_at_T0 (T0 + 3600000000 - 1) [].
Definition w_stale : world := World cache_at_T0 (T0 + 3600000000) [].

(** An entry of [Results] as the API sends it. *)
Definition demo_entry (position given family constructor time : string) : json :=
  JObj [("position", JStr position);
        ("Driver", JObj [("driverId", JStr family); ("givenName", JStr given);
                         ("familyName", JStr family)]);
        ("Constructor", JObj [("name", JStr constructor)]);
        ("Time", JObj [("time", JStr time)])].

Definition demo_grid : list json :=
  [demo_entry "1" "Ada" "First" "Ferrari" "1:30:00.000";
   demo_entry "2" "Bob" "Second" "McLaren" "+1.000";
   demo_entry "3" "Cy" "Third" "Williams" "+2.000";
   demo_entry "4" "Di" "Fourth" "Alpine" "+3.000"].

(** The same entries, the winner listed after the runner-up. *)
Definition demo_grid_unsorted : list json :=
  [demo_entry "2" "Bob" "Second" "McLaren" "+1.000";
   demo_entry "1" "Ada" "First" "Ferrari" "1:30:00.000";
   demo_entry "3" "Cy" "Third" "Williams" "+2.000";
   demo_entry "4" "Di" "Fourth" "Alpine" "+3.000"].

Definition demo_rows (drivers : list json) : list result_row :=
  match read_results (env := demo_env net_down) drivers with
  | Ok rows => rows
  | Raise _ => []
  end.


(** The payload of a race with the given entries. *)
Definition race_payload (entries : list json) : json :=
  JObj [("MRData", JObj [("RaceTable", JObj [("Races", JArr [
    JObj [("raceName", JStr "Italian Grand Prix");
          ("Circuit", JObj [("circuitName", JStr "Monza");
                            ("Location", JObj [("country", JStr "Italy")])]);
          ("date", JStr "2024-09-01");
          ("Results", JArr entries)]])])])].

Definition RESULTS_URL : string := "https://ergast.com/api/f1/2024/16/results.json".


(** The driver lookup with the driver's payload already in the cache,
    fresh: the request is sent all the same, nothing is deferred. *)
Definition driver_payload : json :=
  JObj [("MRData", JObj [("DriverTable", JObj [("Drivers", JArr [
    JObj [("givenName", JStr "Lewis"); ("familyName", JStr "Hamilton");
          ("nationality", JStr "British"); ("dateOfBirth", JStr "1985-01-07");
          ("url", JStr "http://en.wikipedia.org/wiki/Lewis_Hamilton")]])])])].

Definition w_driver_cached : world :=
  World {[ driver_url "hamilton" := (driver_payload, timestamp_of T0) ]} T0 [].

(** ** Concrete inputs of Part III *)

(** [float] on decimal numerals without a fraction. *)
Definition demo_float (s : string) : result Q :=
  result_bind (decimal_int s) (fun n => Ok (inject_Z n)).

(** A reader of instants for the runs: the digits of the date and of the
    time, read as one number of microseconds. *)
Definition demo_instant (s : string) : result Z := decimal_int (remove_char "T" s).

Definition chart_embed : embed := new_embed "chart" None 0x1E90FF.

(** An environment whose charts are drawn, or fail, as asked. *)
Definition demo_env_charts (chart_ok : bool) (net : string -> result json) : Env := {|
  lower := ascii_lower;
  int_of_str := decimal_int;
  float_of_str := demo_float;
  strftime := demo_strftime;
  fromisoformat := demo_instant;
  driver_standings_chart := fun _ _ => if chart_ok then Ok chart_embed else Raise ValueError;
  team_standings_chart := fun _ _ => if chart_ok then Ok chart_embed else Raise ValueError;
  requests_get_json := net;
|}.

(** The world at [T0], with an empty cache and an empty trace. *)
Definition w_cold : world := World ∅ T0 [].

Definition row_at (position : string) (n : Z) : result_row :=
  ResultRow position n "Ada First" "Ferrari" 0xDC0000 None "N/A".

(** An entry of [Results] with a fastest lap of the given rank. *)
Definition demo_entry_lap (position given family constructor lap rank : string)
    : json :=
  JObj [("position", JStr position);
        ("Driver", JObj [("driverId", JStr family); ("givenName", JStr given);
                         ("familyName", JStr family)]);
        ("Constructor", JObj [("name", JStr constructor)]);
        ("FastestLap", JObj [("rank", JStr rank); ("lap", JStr "50");
                             ("Time", JObj [("time", JStr lap)])]);
        ("status", JStr "Finished")].

(** Two entries claim the fastest lap; the second one is the last. *)
Definition demo_laps : list json :=
  [demo_entry_lap "1" "Ada" "First" "Ferrari" "1:20.100" "1";
   demo_entry_lap "2" "Bob" "Second" "McLaren" "1:19.900" "1";
   demo_entry_lap "3" "Cy" "Third" "Williams" "1:21.000" "3"].

Definition demo_state (drivers : list json) : loop_state :=
  match process_results (env := demo_env net_down) (Z.of_nat (length drivers))
          drivers (LoopState "" [] None None) with
  | Ok st => st
  | Raise _ => LoopState "" [] None None
  end.

Definition demo_page : list (Z * string * Z) :=
  [(8, "eighth", 0xDC0000); (9, "ninth", 0xFF8700); (11, "eleventh", 0x005AFF)].

(** A payload without a race, as for a round that does not exist. *)
Definition no_race_payload : json :=
  JObj [("MRData", JObj [("RaceTable", JObj [("Races", JArr [])])])].

Definition driver_standing (position given family constructor points : string)
    : json :=
  JObj [("position", JStr position); ("points", JStr points);
        ("Driver", JObj [("driverId", JStr family); ("givenName", JStr given);
                         ("familyName", JStr family)]);
        ("Constructors", JArr [JObj [("name", JStr constructor)]])].

Definition driver_standings_payload (rows : list json) : json :=
  JObj [("MRData", JObj [("StandingsTable", JObj [("StandingsLists", JArr [
    JObj [("DriverStandings", JArr rows)]])])])].

Definition demo_driver_standings : list json :=
  [driver_standing "1" "Ada" "First" "Ferrari" "400";
   driver_standing "2" "Bob" "Second" "McLaren" "300"].

(** A payload without standings, as for a season that does not exist. *)
Definition no_standings_payload : json :=
  JObj [("MRData", JObj [("StandingsTable", JObj [("StandingsLists", JArr [])])])].

Definition team_standing (position name points : string) : json :=
  JObj [("position", JStr position); ("points", JStr points);
        ("Constructor", JObj [("name", JStr name)])].

Definition team_standings_payload (rows : list json) : json :=
  JObj [("MRData", JObj [("StandingsTable", JObj [("StandingsLists", JArr [
    JObj [("ConstructorStandings", JArr rows)]])])])].

Definition demo_team_standings : list json :=
  [team_standing "1" "Ferrari" "600"; team_standing "2" "McLaren" "300"].

Definition no_driver_payload : json :=
  JObj [("MRData", JObj [("DriverTable", JObj [("Drivers", JArr [])])])].


(** A next event whose date the reader of instants refuses. *)
Definition bad_date_payload : json :=
  JObj [("MRData", JObj [("RaceTable", JObj [("Races", JArr [
    JObj [("raceName", JStr "Italian Grand Prix");
          ("Circuit", JObj [("circuitName", JStr "Monza");
             ("Location", JObj [("country", JStr "Italy");
                                ("locality", JStr "Monza")])]);
          ("date", JStr "soon"); ("time", JStr "000000Z")]])])])].

(** The world after the acknowledgement and the first lookup of the
    race results of round 16 of 2024 *)
Definition w_ack_results (payload : json) : world :=
  after_store (acknowledged w_cold) (results_url 2024 16) payload.

(** * Part II: lemmas and theorems *)

(** ** Results, texts and numbers *)

Lemma result_bind_Ok {A B} (r : result A) (k : A -> result B) (b : B) :
  result_bind r k = Ok b -> exists a, r = Ok a /\ k a = Ok b.
Proof. destruct r as [a|e]; simpl; [eauto | discriminate]. Qed.

Lemma assoc_None {A} k (l : list (string * A)) :
  assoc k l = None <-> ~ In k (map fst l).
Proof.
  induction l as [|[k' v] l IH]; simpl; [tauto|].
  destruct (String.eqb k k') eqn:E.
  - apply String.eqb_eq in E. subst. split; [discriminate | tauto].
  - apply String.eqb_neq in E. rewrite IH. split.
    + intros Hn [H|H]; [congruence | tauto].
    + tauto.
Qed.

Lemma assoc_In {A} k (v : A) (l : list (string * A)) :
  List.NoDup (map fst l) -> In (k, v) l -> assoc k l = Some v.
Proof.
  induction l as [|[k' v'] l IH]; simpl; intros Hnd Hin; [contradiction|].
  inversion Hnd as [|? ? Hnotin Hnd']; subst.
  destruct Hin as [Heq|Hin].
  - injection Heq as -> ->. rewrite String.eqb_refl. reflexivity.
  - destruct (String.eqb k k') eqn:E.
    + apply String.eqb_eq in E. subst. exfalso. apply Hnotin.
      apply (in_map fst) in Hin. assumption.
    + apply IH; assumption.
Qed.


Lemma append_empty_r (a : string) : a +:+ EmptyString = a.
Proof.
  induction a as [|x a IH]; [reflexivity|].
  change (String x (a +:+ EmptyString) = String x a). rewrite IH. reflexivity.
Qed.

Lemma starts_with_spec (p s : string) :
  starts_with p s = true <-> exists post, s = p +:+ post.
Proof.
  revert s. induction p as [|a p IH]; intros s; simpl.
  - split; [intros _; exists s; reflexivity | reflexivity].
  - destruct s as [|b s]; simpl.
    + split; [discriminate | intros [post H]; discriminate].
    + rewrite andb_true_iff, Ascii.eqb_eq, IH. split.
      * intros [-> [post ->]]. exists post. reflexivity.
      * intros [post H]. injection H as -> ->. split; [reflexivity|].
        exists post. reflexivity.
Qed.

Lemma str_in_spec (sub s : string) :
  str_in sub s = true <-> occurs_in sub s.
Proof.
  unfold occurs_in. induction s as [|b s IH]; simpl.
  - rewrite orb_false_r, starts_with_spec. split.
    + intros [post H]. exists EmptyString, post. assumption.
    + intros [[|c pre] [post H]]; [exists post; assumption | discriminate].
  - rewrite orb_true_iff, IH, starts_with_spec. split.
    + intros [[post H] | (pre & post & H)].
      * exists EmptyString, post. assumption.
      * exists (String b pre), post. rewrite H. reflexivity.
    + intros [[|c pre] [post H]].
      * left. exists post. assumption.
      * right. simpl in H. injection H as -> ->. exists pre, post. reflexivity.
Qed.

Lemma Qltb_spec (x y : Q) : Qltb x y = true <-> (x < y)%Q.
Proof. unfold Qltb, Qlt. apply Z.ltb_lt. Qed.

Lemma Qtrunc_nonneg (x : Q) : (0 <= x)%Q -> Qtrunc x = Qfloor x.
Proof.
  destruct x as [n d]. unfold Qle, Qtrunc, Qfloor; simpl. intros Hn.
  apply Z.quot_div_nonneg; lia.
Qed.

Lemma Qfloor_scaled_ratio (w a b : Z) :
  0 < b -> Qfloor (inject_Z w * (inject_Z a / inject_Z b)) = w * a / b.
Proof.
  intros Hb. rewrite Zdiv_Qdiv. apply Qfloor_comp.
  rewrite inject_Z_mult. unfold Qdiv. apply Qmult_assoc.
Qed.

Lemma ratio_sign (a b : Z) :
  0 < b -> Qltb 0 (inject_Z a / inject_Z b) = (0 <? a).
Proof.
  intros Hb. destruct b as [|b|b]; try lia.
  unfold Qltb, Qdiv, Qinv, Qmult, inject_Z; simpl.
  rewrite !Z.mul_1_r. reflexivity.
Qed.



(** The number of filled glyphs, as an integer expression. *)
Lemma filled_glyphs (position total_drivers width : Z) :
  1 < total_drivers -> position <= total_drivers -> 0 <= width ->
  Qtrunc (inject_Z width *
          max0 (inject_Z (total_drivers - position) / inject_Z (total_drivers - 1)))
  = width * (total_drivers - position) / (total_drivers - 1).
Proof.
  intros Ht Hp Hw.
  unfold max0. rewrite ratio_sign by lia.
  destruct (0 <? total_drivers - position) eqn:E.
  - rewrite Qtrunc_nonneg.
    + apply Qfloor_scaled_ratio. lia.
    + apply Qmult_le_0_compat.
      * unfold Qle; simpl. lia.
      * apply Qlt_le_weak, Qltb_spec. rewrite ratio_sign by lia. exact E.
  - apply Z.ltb_ge in E. assert (total_drivers - position = 0) as -> by lia.
    rewrite Z.mul_0_r, Z.div_0_l by lia.
    unfold Qtrunc; simpl. rewrite Z.mul_0_r. reflexivity.
Qed.

(** ** Sorting, ranges and pages *)

Section SortByFacts.
Context {A : Type} (key : A -> Z).

Lemma insert_by_perm x l : Permutation (x :: l) (insert_by key x l).
Proof.
  induction l as [|y l IH]; simpl; [reflexivity|].
  destruct (key x <=? key y); [reflexivity|].
  rewrite perm_swap. apply perm_skip. exact IH.
Qed.

Lemma sort_by_perm l : Permutation l (sort_by key l).
Proof.
  induction l as [|x l IH]; simpl; [reflexivity|].
  rewrite <- insert_by_perm. apply perm_skip. exact IH.
Qed.





End SortByFacts.

Lemma range_from_concat {A} (l : list A) (step fuel i : nat) :
  (0 < step)%nat -> (length l - i <= fuel)%nat ->
  concat (map (fun i => slice l i (i + step)) (range_from fuel i (length l) step))
  = drop i l.
Proof.
  intros Hstep. revert i. induction fuel as [|fuel IH]; intros i Hfuel; simpl.
  - symmetry. apply drop_ge. lia.
  - destruct (i <? length l)%nat eqn:E.
    + apply Nat.ltb_lt in E. simpl. rewrite IH by lia.
      unfold slice. replace (i + step - i)%nat with step by lia.
      rewrite <- (drop_drop l step i). apply take_drop.
    + apply Nat.ltb_ge in E. symmetry. apply drop_ge. exact E.
Qed.

Lemma ceil_div_step (a step : nat) :
  (0 < step)%nat -> (0 < a)%nat ->
  ((a + (step - 1)) / step = S ((a - step + (step - 1)) / step))%nat.
Proof.
  intros Hstep Ha. destruct (Nat.le_gt_cases a step) as [Hle|Hgt].
  - replace (a - step)%nat with 0%nat by lia. simpl.
    rewrite (Nat.div_small (step - 1) step) by lia.
    symmetry. apply (Nat.div_unique _ _ 1 (a - 1)); lia.
  - replace (a + (step - 1))%nat with ((a - step + (step - 1)) + 1 * step)%nat by lia.
    rewrite Nat.div_add by lia. lia.
Qed.

Lemma range_from_length (step fuel i stop : nat) :
  (0 < step)%nat -> (stop - i <= fuel)%nat ->
  length (range_from fuel i stop step) = ((stop - i + (step - 1)) / step)%nat.
Proof.
  intros Hstep. revert i. induction fuel as [|fuel IH]; intros i Hfuel; simpl.
  - replace (stop - i)%nat with 0%nat by lia. simpl.
    symmetry. apply Nat.div_small. lia.
  - destruct (i <? stop)%nat eqn:E.
    + apply Nat.ltb_lt in E. simpl. rewrite IH by lia.
      rewrite (ceil_div_step (stop - i) step) by lia.
      do 2 f_equal. lia.
    + apply Nat.ltb_ge in E. replace (stop - i)%nat with 0%nat by lia. simpl.
      symmetry. apply Nat.div_small. lia.
Qed.

Lemma range_from_lookup (step fuel i stop k j : nat) :
  range_from fuel i stop step !! k = Some j ->
  j = (i + k * step)%nat /\ (j < stop)%nat.
Proof.
  revert i k. induction fuel as [|fuel IH]; intros i k; simpl; [discriminate|].
  destruct (i <? stop)%nat eqn:E; [|discriminate].
  apply Nat.ltb_lt in E. destruct k as [|k]; simpl.
  - intros [= <-]. lia.
  - intros H. apply IH in H. lia.
Qed.

Lemma chunks_concat {A} (l : list A) : concat (chunks l) = l.
Proof.
  unfold chunks, py_range. rewrite range_from_concat by lia. reflexivity.
Qed.

Lemma chunks_length {A} (l : list A) :
  length (chunks l) = ((length l + 6) / 7)%nat.
Proof.
  unfold chunks, py_range. rewrite length_map, range_from_length by lia.
  f_equal. lia.
Qed.

Lemma chunks_lookup {A} (l : list A) (k : nat) (page : list A) :
  chunks l !! k = Some page ->
  page = take 7 (drop (7 * k) l) /\
  length page = Nat.min 7 (length l - 7 * k) /\
  (0 < length page)%nat.
Proof.
  unfold chunks. rewrite list_lookup_fmap. intros H.
  apply fmap_Some in H as (j & Hj & ->).
  apply range_from_lookup in Hj. destruct Hj as [Hj Hlt].
  assert (j = 7 * k)%nat as -> by lia. clear Hj.
  unfold slice. replace (7 * k + 7 - 7 * k)%nat with 7%nat by lia.
  split; [reflexivity|].
  rewrite length_take, length_drop. lia.
Qed.


Lemma chunks_nonempty {A} (l : list A) :
  List.Forall (fun chunk => chunk <> []) (chunks l).
Proof.
  apply List.Forall_forall. intros chunk Hin.
  apply list_elem_of_In, list_elem_of_lookup in Hin. destruct Hin as [k Hk].
  apply chunks_lookup in Hk. destruct Hk as (_ & _ & Hpos).
  intros ->. simpl in Hpos. lia.
Qed.

(** ** Countdown arithmetic *)

Lemma total_seconds_of_us (us : Z) :
  total_seconds (timedelta_of_us us) = (us # 1000000).
Proof.
  unfold total_seconds, timedelta_of_us; simpl. f_equal.
  pose proof (Z.div_mod us 86400000000 ltac:(lia)) as H1.
  pose proof (Z.div_mod (us mod 86400000000) 1000000 ltac:(lia)) as H2.
  assert (us mod 1000000 = (us mod 86400000000) mod 1000000) as H3.
  { rewrite H1 at 1.
    replace (86400000000 * (us / 86400000000))
      with ((86400 * (us / 86400000000)) * 1000000) by lia.
    rewrite Z.add_comm, Z_mod_plus_full. reflexivity. }
  lia.
Qed.

Lemma timedelta_parts (us : Z) :
  days (timedelta_of_us us) = us / 1000000 / 86400 /\
  seconds (timedelta_of_us us) = (us / 1000000) mod 86400.
Proof.
  unfold timedelta_of_us; simpl. split.
  - rewrite Z.div_div by lia. reflexivity.
  - change 86400000000 with (1000000 * 86400).
    rewrite Z.rem_mul_r by lia.
    rewrite Z.mul_comm, Z.div_add by lia.
    rewrite Z.div_small by (apply Z.mod_pos_bound; lia). reflexivity.
Qed.

Lemma countdown_text_future (race_datetime now : Z) :
  now < race_datetime ->
  let total := (race_datetime - now) / 1000000 in
  countdown_text race_datetime now
  = "🕒 **Countdown:** " +:+ str_of_Z (total / 86400) +:+ "d "
    +:+ str_of_Z (total mod 86400 / 3600) +:+ "h "
    +:+ str_of_Z (total mod 86400 mod 3600 / 60) +:+ "m "
    +:+ str_of_Z (total mod 86400 mod 3600 mod 60) +:+ "s".
Proof.
  intros Hlt total. unfold countdown_text.
  rewrite total_seconds_of_us.
  assert (Qltb 0 (race_datetime - now # 1000000) = true) as ->.
  { apply Qltb_spec. unfold Qlt; simpl. lia. }
  destruct (timedelta_parts (race_datetime - now)) as [-> ->].
  reflexivity.
Qed.


Section Properties.
Context {env : Env}.

(** ** Response cache *)

Lemma get_cached_response_refresh url w :
  get_cached_response url true w =
    match requests_get_json url with
    | Ok payload => (Ok payload, after_store w url payload)
    | Raise e => (Raise e, after_fetch w url)
    end.
Proof.
  unfold get_cached_response, bind, now_timestamp, cache_lookup, http_get,
    emit, lift, cache_store, ret, after_store, after_fetch; simpl.
  destruct (cache w !! url) as [[cached_data ts]|]; simpl;
    destruct (requests_get_json url); reflexivity.
Qed.

Lemma get_cached_response_cases url w :
  get_cached_response url false w =
    match cache w !! url with
    | Some (cached_data, fetched_at) =>
        if Qltb (timestamp_of (now_us w) - fetched_at) CACHE_EXPIRY
        then (Ok cached_data, w)
        else get_cached_response url true w
    | None => get_cached_response url true w
    end.
Proof.
  unfold get_cached_response, bind, now_timestamp, cache_lookup; simpl.
  destruct (cache w !! url) as [[cached_data ts]|]; simpl; [|reflexivity].
  destruct (Qltb _ _); reflexivity.
Qed.

Lemma get_cached_response_hit url w payload :
  fresh_entry w url payload ->
  get_cached_response url false w = (Ok payload, w).
Proof.
  intros (ts & Hlk & Hage). rewrite get_cached_response_cases, Hlk.
  apply Qltb_spec in Hage. rewrite Hage. reflexivity.
Qed.

Lemma get_cached_response_miss url w :
  (forall payload, ~ fresh_entry w url payload) ->
  get_cached_response url false w = get_cached_response url true w.
Proof.
  intros Hstale. rewrite get_cached_response_cases.
  destruct (cache w !! url) as [[cached_data ts]|] eqn:Hlk; [|reflexivity].
  destruct (Qltb _ _) eqn:Hage; [|reflexivity].
  exfalso. apply (Hstale cached_data). exists ts. split; [assumption|].
  apply Qltb_spec. assumption.
Qed.

(** C1. A call without [force_refresh] that finds an entry younger than
    [CACHE_EXPIRY] = 3600 s returns the stored payload and leaves the
    world as it was: no request is sent. Every other call (no entry, an
    entry that is not younger than the TTL, or [force_refresh]) sends the
    request, and when the request yields a payload stores the pair
    (payload, now) under the key, replacing what was there, and returns
    that payload. *)
Theorem get_cached_response_contract (url : string) (force_refresh : bool)
    (w : world) :
  CACHE_EXPIRY == 3600 /\
  (forall payload,
     force_refresh = false -> fresh_entry w url payload ->
     get_cached_response url force_refresh w = (Ok payload, w)) /\
  (forall payload,
     force_refresh = true \/ (forall stored, ~ fresh_entry w url stored) ->
     requests_get_json url = Ok payload ->
     get_cached_response url force_refresh w
       = (Ok payload, after_store w url payload) /\
     cache (after_store w url payload) !! url
       = Some (payload, timestamp_of (now_us w)) /\
     trace (after_store w url payload) = trace w ++ [HttpGet url]).
Proof.
  split; [reflexivity|]. split.
  - intros payload -> Hfresh. apply get_cached_response_hit. assumption.
  - intros payload Hwhy Hnet. split; [|split].
    + assert (get_cached_response url force_refresh w
              = get_cached_response url true w) as ->.
      { destruct force_refresh; [reflexivity|].
        destruct Hwhy as [Hf|Hstale]; [discriminate|].
        apply get_cached_response_miss. assumption. }
      rewrite get_cached_response_refresh, Hnet. reflexivity.
    + simpl. apply lookup_insert_eq.
    + reflexivity.
Qed.


(** ** Colour resolver *)

Lemma partial_match_spec team team_name :
  partial_match team team_name = true <-> matches_ignoring_case team team_name.
Proof.
  unfold partial_match, matches_ignoring_case.
  rewrite orb_true_iff, !str_in_spec. reflexivity.
Qed.

Lemma scan_colors_first team_name pre team color post :
  (forall t c, In (t, c) pre -> ~ matches_ignoring_case t team_name) ->
  matches_ignoring_case team team_name ->
  scan_colors team_name (pre ++ (team, color) :: post) = color.
Proof.
  intros Hpre Hm. induction pre as [|[t c] pre IH]; simpl.
  - apply partial_match_spec in Hm. rewrite Hm. reflexivity.
  - destruct (partial_match t team_name) eqn:Ht.
    + exfalso. apply (Hpre t c); [left; reflexivity|].
      apply partial_match_spec. assumption.
    + apply IH. intros t' c' Hin. apply (Hpre t' c'). right. assumption.
Qed.

Lemma scan_colors_none team_name items :
  (forall t c, In (t, c) items -> ~ matches_ignoring_case t team_name) ->
  scan_colors team_name items = DEFAULT_COLOR.
Proof.
  induction items as [|[t c] items IH]; simpl; intros Hno; [reflexivity|].
  destruct (partial_match t team_name) eqn:Ht.
  - exfalso. apply (Hno t c); [left; reflexivity|].
    apply partial_match_spec. assumption.
  - apply IH. intros t' c' Hin. apply (Hno t' c'). right. assumption.
Qed.

Lemma TEAM_COLORS_keys_distinct : List.NoDup (map fst TEAM_COLORS).
Proof.
  apply (NoDup_ListNoDup (map fst TEAM_COLORS)).
  apply (bool_decide_unpack _). vm_compute. reflexivity.
Qed.

(** C3. An absent or empty name resolves to the default colour; a name
    that is a key of the table (compared as it is written) resolves to
    that entry's colour; any other name resolves to the colour of the
    first entry, in the order of the table, whose name contains the input
    or is contained in it, both in lower case; and to the default colour
    when no entry matches. *)
Theorem get_team_color_contract (team_name : option string) :
  (team_name = None \/ team_name = Some EmptyString ->
   get_team_color team_name = DEFAULT_COLOR) /\
  (forall name color,
     team_name = Some name -> name <> EmptyString ->
     In (name, color) TEAM_COLORS ->
     get_team_color team_name = color) /\
  (forall name,
     team_name = Some name -> name <> EmptyString ->
     ~ In name (map fst TEAM_COLORS) ->
     (forall pre team color post,
        TEAM_COLORS = pre ++ (team, color) :: post ->
        (forall t c, In (t, c) pre -> ~ matches_ignoring_case t name) ->
        matches_ignoring_case team name ->
        get_team_color team_name = color) /\
     ((forall t c, In (t, c) TEAM_COLORS -> ~ matches_ignoring_case t name) ->
      get_team_color team_name = DEFAULT_COLOR)).
Proof.
  split; [|split].
  - intros [-> | ->]; reflexivity.
  - intros name color -> Hne Hin. unfold get_team_color.
    destruct name as [|a name]; [congruence|].
    rewrite (assoc_In _ color _ TEAM_COLORS_keys_distinct Hin). reflexivity.
  - intros name -> Hne Hkey.
    assert (get_team_color (Some name) = scan_colors name TEAM_COLORS) as ->.
    { unfold get_team_color. destruct name as [|a name]; [congruence|].
      apply assoc_None in Hkey. rewrite Hkey. reflexivity. }
    split.
    + intros pre team color post -> Hpre Hm.
      apply scan_colors_first; assumption.
    + intros Hno. apply scan_colors_none. exact Hno.
Qed.

(** ** Rank bar *)

Lemma create_progress_bar_ok (position : string) (p total_drivers width : Z) :
  int_of_str position = Ok p -> total_drivers <> 1 ->
  create_progress_bar position total_drivers width
  = Ok (let filled :=
          Qtrunc (inject_Z width *
                  max0 (inject_Z (total_drivers - p) / inject_Z (total_drivers - 1))) in
        str_mul "█" filled +:+ str_mul "░" (width - filled)).
Proof.
  intros Hp Ht. unfold create_progress_bar. rewrite Hp. simpl.
  destruct (total_drivers - 1 =? 0) eqn:E; [apply Z.eqb_eq in E; lia|].
  reflexivity.
Qed.

(** C4 (the code fails the claim). With [total_drivers = 1] the divisor
    [total_drivers - 1] is zero: for every position that [int] accepts
    the call raises [ZeroDivisionError], and no bar is returned. *)
Theorem create_progress_bar_single_entrant (position : string) (width : Z) :
  create_progress_bar position 1 width =
    match int_of_str position with
    | Ok _ => Raise ZeroDivisionError
    | Raise e => Raise e
    end
  /\ is_ok (create_progress_bar position 1 width) = false.
Proof.
  unfold create_progress_bar.
  destruct (int_of_str position); simpl; split; reflexivity.
Qed.


(** ** Race results: pages *)

Lemma page_fields_length (chunk : list (Z * string * Z)) (e : embed) :
  length (fields (fold_left
    (fun e r => set_color (add_field e zero_width_space (snd (fst r)) true) (snd r))
    chunk e))
  = (length (fields e) + length chunk)%nat.
Proof.
  revert e. induction chunk as [|r chunk IH]; intros e; simpl; [lia|].
  rewrite IH. unfold set_color, add_field. cbn [fields].
  rewrite length_app. simpl. lia.
Qed.

Lemma page_embed_ok (chunk : list (Z * string * Z)) :
  chunk <> [] ->
  exists e, page_embed chunk = Ok e /\ length (fields e) = length chunk.
Proof.
  intros Hne. destruct chunk as [|r chunk]; [congruence|].
  unfold page_embed. simpl. eexists. split; [reflexivity|].
  rewrite page_fields_length. unfold set_color, add_field, new_embed.
  cbn [fields]. rewrite length_app. simpl. lia.
Qed.

Lemma send_pages_trace (pages : list (list (Z * string * Z))) (w : world) :
  List.Forall (fun chunk => chunk <> []) pages ->
  exists embeds,
    List.Forall2 page_sent pages embeds /\
    send_pages pages w
    = (Ok tt, World (cache w) (now_us w)
                (trace w ++ map (fun e => FollowupSend (Rich e)) embeds)).
Proof.
  intros Hne. revert w. induction Hne as [|chunk pages Hc _ IH]; intros w.
  - exists []. split; [constructor|]. simpl. rewrite app_nil_r.
    destruct w; reflexivity.
  - destruct (page_embed_ok chunk Hc) as (e & He & Hlen).
    destruct (IH (World (cache w) (now_us w) (trace w ++ [FollowupSend (Rich e)])))
      as (embeds & Hall & Hrun).
    exists (e :: embeds). split; [constructor; [split; assumption|assumption]|].
    simpl. unfold bind at 1, lift. rewrite He.
    unfold bind, emit. simpl in *. rewrite Hrun.
    rewrite <- app_assoc. reflexivity.
Qed.


(** ** Race results: podium *)

Lemma read_result_position (driver : json) (row : result_row) :
  read_result driver = Ok row ->
  int_of_str (position row) = Ok (position_int row).
Proof.
  unfold read_result. intros H.
  apply result_bind_Ok in H as (pos & _ & H).
  apply result_bind_Ok in H as (pos_int & Hint & H).
  repeat (apply result_bind_Ok in H as (? & _ & H)).
  injection H as <-. exact Hint.
Qed.

Lemma process_results_read (total_drivers : Z) (drivers : list json)
    (rows : list result_row) (st : loop_state) :
  read_results drivers = Ok rows ->
  process_results total_drivers drivers st = add_results total_drivers rows st /\
  length rows = length drivers /\
  List.Forall (fun row => int_of_str (position row) = Ok (position_int row)) rows.
Proof.
  revert rows st. induction drivers as [|driver rest IH]; intros rows st; simpl.
  - intros [= <-]. repeat split. constructor.
  - intros H. apply result_bind_Ok in H as (row & Hrow & H).
    apply result_bind_Ok in H as (rows' & Hrows & H). injection H as <-.
    rewrite Hrow. simpl.
    split; [|split].
    + destruct (add_result total_drivers st row) as [st'|e]; simpl; [|reflexivity].
      apply (IH rows' st' Hrows).
    + f_equal. apply (IH rows' st Hrows).
    + constructor; [eapply read_result_position; exact Hrow|].
      apply (IH rows' st Hrows).
Qed.

Lemma medal_of_rank (p : Z) :
  1 <= p <= 3 -> list_getitem MEDALS (p - 1) = Ok (medal_of p).
Proof.
  intros Hp. assert (p = 1 \/ p = 2 \/ p = 3) as [-> | [-> | ->]] by lia;
    reflexivity.
Qed.





(** ** Next event *)



(** ** Acknowledgement and cache discipline of the handlers *)

Lemma cache_backed_pure {A} (m : M A) :
  (forall w, snd (m w) = w) -> cache_backed m.
Proof.
  intros Hm w. exists []. rewrite Hm, app_nil_r. split; [reflexivity|].
  intros url payload _ [[]|H]. exact H.
Qed.

Lemma cache_backed_ret {A} (a : A) : cache_backed (ret a).
Proof. apply cache_backed_pure. reflexivity. Qed.

Lemma cache_backed_lift {A} (r : result A) : cache_backed (lift r).
Proof. apply cache_backed_pure. reflexivity. Qed.

Lemma cache_backed_utc_now : cache_backed utc_now.
Proof. apply cache_backed_pure. reflexivity. Qed.

Lemma cache_backed_emit (e : event) :
  (forall url, e <> HttpGet url) -> cache_backed (emit e).
Proof.
  intros He w. exists [e]. split; [reflexivity|].
  intros url payload _ [[H|[]]|H]; [exfalso; exact (He url H)|exact H].
Qed.

Lemma cache_backed_bind {A B} (m : M A) (k : A -> M B) :
  cache_backed m -> (forall a, cache_backed (k a)) -> cache_backed (bind m k).
Proof.
  intros Hm Hk w. destruct (Hm w) as (evs1 & Ht1 & Hc1).
  unfold bind. destruct (m w) as [[a|e] w1] eqn:E; simpl in *.
  - destruct (Hk a w1) as (evs2 & Ht2 & Hc2).
    exists (evs1 ++ evs2). rewrite Ht2, Ht1, app_assoc. split; [reflexivity|].
    intros url payload Hnet Hwhy. apply Hc2; [exact Hnet|].
    rewrite in_app_iff in Hwhy. destruct Hwhy as [[H|H]|H].
    + right. apply Hc1; [exact Hnet|left; exact H].
    + left. exact H.
    + right. apply Hc1; [exact Hnet|right; exact H].
  - exists evs1. split; [exact Ht1|exact Hc1].
Qed.

Lemma cache_backed_try_except {A} (body : M A) (catches : exn -> bool)
    (handler : exn -> M A) :
  cache_backed body -> (forall e, cache_backed (handler e)) ->
  cache_backed (try_except body catches handler).
Proof.
  intros Hm Hk w. destruct (Hm w) as (evs1 & Ht1 & Hc1).
  unfold try_except. destruct (body w) as [[a|e] w1] eqn:E; simpl in *.
  - exists evs1. split; [exact Ht1|exact Hc1].
  - destruct (catches e); simpl.
    + destruct (Hk e w1) as (evs2 & Ht2 & Hc2).
      exists (evs1 ++ evs2). rewrite Ht2, Ht1, app_assoc. split; [reflexivity|].
      intros url payload Hnet Hwhy. apply Hc2; [exact Hnet|].
      rewrite in_app_iff in Hwhy. destruct Hwhy as [[H|H]|H].
      * right. apply Hc1; [exact Hnet|left; exact H].
      * left. exact H.
      * right. apply Hc1; [exact Hnet|right; exact H].
    + exists evs1. split; [exact Ht1|exact Hc1].
Qed.

Lemma cache_backed_get_cached_response (url : string) (force_refresh : bool) :
  cache_backed (get_cached_response url force_refresh).
Proof.
  intros w.
  assert (exists evs,
    trace (snd (get_cached_response url true w)) = trace w ++ evs /\
    forall url' payload,
      requests_get_json url' = Ok payload ->
      In (HttpGet url') evs \/ cached w url' payload ->
      cached (snd (get_cached_response url true w)) url' payload) as Hrefresh.
  { rewrite get_cached_response_refresh. exists [HttpGet url].
    destruct (requests_get_json url) as [fetched|e] eqn:Hfetch; simpl.
    - split; [reflexivity|]. intros url' payload Hnet Hwhy. unfold cached; simpl.
      destruct (decide (url = url')) as [<-|Hne].
      + rewrite lookup_insert_eq. rewrite Hfetch in Hnet. injection Hnet as <-.
        eexists. reflexivity.
      + rewrite lookup_insert_ne by exact Hne.
        destruct Hwhy as [[H|[]]|H]; [congruence|exact H].
    - split; [reflexivity|]. intros url' payload Hnet [[H|[]]|H]; [|exact H].
      injection H as <-. congruence. }
  destruct force_refresh; [exact Hrefresh|].
  rewrite get_cached_response_cases.
  destruct (cache w !! url) as [[cached_data ts]|]; [|exact Hrefresh].
  destruct (Qltb _ _); [|exact Hrefresh].
  exists []. simpl. rewrite app_nil_r. split; [reflexivity|].
  intros url' payload _ [[]|H]. exact H.
Qed.

Lemma not_http_Defer url : Defer <> HttpGet url.
Proof. discriminate. Qed.

Lemma not_http_FollowupSend m url : FollowupSend m <> HttpGet url.
Proof. discriminate. Qed.

Ltac cache_backed_step :=
  lazymatch goal with
  | |- cache_backed (bind _ _) => apply cache_backed_bind; [|intros ?]
  | |- cache_backed (try_except _ _ _) => apply cache_backed_try_except; [|intros ?]
  | |- cache_backed (get_cached_response _ _) => apply cache_backed_get_cached_response
  | |- cache_backed (lift _) => apply cache_backed_lift
  | |- cache_backed (ret _) => apply cache_backed_ret
  | |- cache_backed utc_now => apply cache_backed_utc_now
  | |- cache_backed (emit Defer) => apply cache_backed_emit, not_http_Defer
  | |- cache_backed (emit (FollowupSend _)) =>
      apply cache_backed_emit, not_http_FollowupSend
  | |- cache_backed (if ?b then _ else _) => destruct b
  | |- cache_backed (match ?x with _ => _ end) => destruct x
  end.

Lemma cache_backed_send_pages pages : cache_backed (send_pages pages).
Proof.
  induction pages as [|chunk rest IH]; simpl; repeat cache_backed_step.
  exact IH.
Qed.

Lemma cache_backed_championship_loop drivers e :
  cache_backed (championship_loop drivers e).
Proof.
  induction drivers as [|driver rest IH]; simpl; repeat cache_backed_step.
  exact IH.
Qed.

Lemma deferred_and_cached_intro (rest : M unit) :
  cache_backed rest -> deferred_and_cached (emit Defer ;;; rest).
Proof.
  intros Hrest w. unfold bind, emit. simpl.
  destruct (Hrest (World (cache w) (now_us w) (trace w ++ [Defer])))
    as (evs & Ht & Hc).
  exists evs. simpl in Ht. rewrite Ht, <- app_assoc. split; [reflexivity|].
  intros url payload Hnet Hin. apply Hc; [exact Hnet|left; exact Hin].
Qed.

Lemma f1_results_deferred year round : deferred_and_cached (f1_results year round).
Proof.
  apply deferred_and_cached_intro. cbv zeta. repeat cache_backed_step.
  apply cache_backed_send_pages.
Qed.

Lemma f1_standings_drivers_deferred year :
  deferred_and_cached (f1_standings_drivers year).
Proof.
  apply deferred_and_cached_intro. cbv zeta. repeat cache_backed_step.
  apply cache_backed_championship_loop.
Qed.

Lemma f1_standings_teams_deferred year :
  deferred_and_cached (f1_standings_teams year).
Proof.
  apply deferred_and_cached_intro. cbv zeta. repeat cache_backed_step.
Qed.

Lemma f1_next_deferred : deferred_and_cached f1_next.
Proof.
  apply deferred_and_cached_intro. unfold next_event_reply.
  repeat cache_backed_step.
Qed.

Lemma f1_driver_run (name : string) (w : world) :
  f1_driver name w =
    let w1 := after_fetch w (driver_url name) in
    match requests_get_json (driver_url name) with
    | Raise e => (Raise e, w1)
    | Ok response =>
        match driver_embed response with
        | Ok e =>
            (Ok tt, World (cache w) (now_us w) (trace w1 ++ [ResponseSend (Rich e)]))
        | Raise e =>
            if index_or_key_error e
            then (Ok tt, World (cache w) (now_us w)
                           (trace w1 ++ [ResponseSend (Text
                              "❌ Could not find the driver. Check the name and try again.")]))
            else (Raise e, w1)
        end
    end.
Proof.
  unfold f1_driver, http_get, bind, try_except, emit, lift, after_fetch; simpl.
  destruct (requests_get_json (driver_url name)) as [response|e]; [|reflexivity].
  destruct (driver_embed response) as [e|e]; [reflexivity|].
  destruct (index_or_key_error e); reflexivity.
Qed.

(** C9 (the code fails the claim for the driver lookup). The handlers of
    the race results, of the two standings and of the next event
    acknowledge first and send their requests through the cache. The
    driver lookup does neither: its first effect is the request itself,
    sent whatever the cache holds, it never defers, and it leaves the
    cache as it was. *)
Theorem driver_lookup_skips_defer_and_cache (year round : Z) (name : string)
    (w : world) :
  deferred_and_cached (f1_results year round) /\
  deferred_and_cached (f1_standings_drivers year) /\
  deferred_and_cached (f1_standings_teams year) /\
  deferred_and_cached f1_next /\
  cache (snd (f1_driver name w)) = cache w /\
  (exists evs,
     trace (snd (f1_driver name w)) = trace w ++ HttpGet (driver_url name) :: evs /\
     ~ In Defer evs) /\
  ~ deferred_and_cached (f1_driver name).
Proof.
  split; [apply f1_results_deferred|].
  split; [apply f1_standings_drivers_deferred|].
  split; [apply f1_standings_teams_deferred|].
  split; [apply f1_next_deferred|].
  assert (forall w0,
    cache (snd (f1_driver name w0)) = cache w0 /\
    exists evs,
      trace (snd (f1_driver name w0)) = trace w0 ++ HttpGet (driver_url name) :: evs /\
      ~ In Defer evs) as Hrun.
  { intros w0. rewrite f1_driver_run. cbv zeta.
    destruct (requests_get_json (driver_url name)) as [response|e]; simpl.
    - destruct (driver_embed response) as [e|e]; simpl.
      + split; [reflexivity|]. eexists. rewrite <- app_assoc. split; [reflexivity|].
        intros [H|[]]. discriminate.
      + destruct (index_or_key_error e); simpl.
        * split; [reflexivity|]. eexists. rewrite <- app_assoc.
          split; [reflexivity|]. intros [H|[]]. discriminate.
        * split; [reflexivity|]. exists []. split; [reflexivity|]. intros [].
    - split; [reflexivity|]. exists []. split; [reflexivity|]. intros []. }
  split; [apply Hrun|]. split; [apply Hrun|].
  intros Hdef. destruct (Hdef (World ∅ 0 [])) as (evs & Ht & _).
  destruct (Hrun (World ∅ 0 [])) as (_ & evs' & Ht' & _).
  rewrite Ht' in Ht. simpl in Ht. discriminate.
Qed.

Lemma next_event_reply_run (response : json) (w : world) :
  next_event_reply response w =
    match next_event_embed response (now_us w) with
    | Ok e =>
        (Ok tt, World (cache w) (now_us w)
                  (trace w ++ [FollowupSend (Rich (set_footer e (footer_text (now_us w))))]))
    | Raise e =>
        if index_or_key_error e
        then (Ok tt, World (cache w) (now_us w)
                       (trace w ++ [FollowupSend (Text
                          ("❌ Could not fetch the next race details. Error: "
                           +:+ str_exn e))]))
        else (Raise e, w)
    end.
Proof.
  unfold next_event_reply, try_except, bind, utc_now, lift, emit; simpl.
  destruct (next_event_embed response (now_us w)) as [e|e]; [reflexivity|].
  destruct (index_or_key_error e); reflexivity.
Qed.

(** C10. Every run of the next-event handler acknowledges, then sends the
    request for [NEXT_URL], whatever the cache holds: when the request
    fails the failure is raised, and otherwise the reply is built from the
    payload just received, which replaces the entry of the cache. The
    result and the trace do not depend on what the cache held. *)
Theorem f1_next_always_fetches (w : world) :
  f1_next w =
    match requests_get_json NEXT_URL with
    | Ok payload =>
        next_event_reply payload
          (World (<[NEXT_URL := (payload, timestamp_of (now_us w))]> (cache w))
                 (now_us w) (trace w ++ [Defer; HttpGet NEXT_URL]))
    | Raise e =>
        (Raise e, World (cache w) (now_us w) (trace w ++ [Defer; HttpGet NEXT_URL]))
    end /\
  (exists evs, trace (snd (f1_next w)) = trace w ++ Defer :: HttpGet NEXT_URL :: evs) /\
  (forall stale : gmap string (json * Q),
     let w' := World stale (now_us w) (trace w) in
     fst (f1_next w') = fst (f1_next w) /\
     trace (snd (f1_next w')) = trace (snd (f1_next w))).
Proof.
  assert (forall w0, f1_next w0 =
    match requests_get_json NEXT_URL with
    | Ok payload =>
        next_event_reply payload
          (World (<[NEXT_URL := (payload, timestamp_of (now_us w0))]> (cache w0))
                 (now_us w0) (trace w0 ++ [Defer; HttpGet NEXT_URL]))
    | Raise e =>
        (Raise e, World (cache w0) (now_us w0) (trace w0 ++ [Defer; HttpGet NEXT_URL]))
    end) as Hrun.
  { intros w0. unfold f1_next. unfold bind at 1. unfold emit at 1.
    unfold bind at 1. rewrite get_cached_response_refresh.
    unfold after_store, after_fetch; simpl. rewrite <- app_assoc. simpl.
    destruct (requests_get_json NEXT_URL); reflexivity. }
  split; [apply Hrun|]. split.
  - rewrite Hrun. destruct (requests_get_json NEXT_URL) as [payload|e]; simpl.
    + rewrite next_event_reply_run; simpl.
      destruct (next_event_embed payload (now_us w)) as [e|e]; simpl.
      * eexists. rewrite <- app_assoc. reflexivity.
      * destruct (index_or_key_error e); simpl.
        -- eexists. rewrite <- app_assoc. reflexivity.
        -- exists []. reflexivity.
    + exists []. reflexivity.
  - intros stale w'. rewrite !Hrun. unfold w'; simpl.
    destruct (requests_get_json NEXT_URL) as [payload|e]; simpl; [|split; reflexivity].
    rewrite !next_event_reply_run; simpl.
    destruct (next_event_embed payload (now_us w)) as [e|e]; simpl; [split; reflexivity|].
    destruct (index_or_key_error e); split; reflexivity.
Qed.

End Properties.

(** ** The development run on concrete inputs *)

Lemma w_fresh_entry : fresh_entry w_fresh "k" (JStr "stored").
Proof.
  exists (timestamp_of T0). split.
  - apply lookup_singleton_eq.
  - apply Qltb_spec. reflexivity.
Defined.

Lemma w_stale_entry (stored : json) : ~ fresh_entry w_stale "k" stored.
Proof.
  intros (ts & Hlk & Hage). unfold w_stale, cache_at_T0 in Hlk; simpl in Hlk.
  rewrite lookup_singleton_eq in Hlk. injection Hlk as <- <-.
  apply Qltb_spec in Hage. discriminate.
Defined.

Lemma get_cached_response_contract_witness :
  get_cached_response (env := demo_env (net_ok (JStr "new"))) "k" false w_fresh
    = (Ok (JStr "stored"), w_fresh) /\
  get_cached_response (env := demo_env (net_ok (JStr "new"))) "k" false w_stale
    = (Ok (JStr "new"), after_store w_stale "k" (JStr "new")) /\
  get_cached_response (env := demo_env (net_ok (JStr "new"))) "k" true w_fresh
    = (Ok (JStr "new"), after_store w_fresh "k" (JStr "new")).
Proof.
  destruct (get_cached_response_contract (env := demo_env (net_ok (JStr "new"))) "k" false w_fresh)
    as (_ & Hhit & _).
  destruct (get_cached_response_contract (env := demo_env (net_ok (JStr "new"))) "k" false w_stale)
    as (_ & _ & Hmiss).
  destruct (get_cached_response_contract (env := demo_env (net_ok (JStr "new"))) "k" true w_fresh)
    as (_ & _ & Hforce).
  split; [|split].
  - apply Hhit; [reflexivity | exact w_fresh_entry].
  - apply (Hmiss (JStr "new")); [right; exact w_stale_entry | reflexivity].
  - apply (Hforce (JStr "new")); [left; reflexivity | reflexivity].
Defined.


Lemma get_team_color_contract_witness :
  get_team_color (env := demo_env net_down) None = DEFAULT_COLOR /\
  get_team_color (env := demo_env net_down) (Some "Ferrari") = 0xDC0000 /\
  get_team_color (env := demo_env net_down) (Some "scuderia ferrari") = 0xDC0000 /\
  get_team_color (env := demo_env net_down) (Some "Tesla") = DEFAULT_COLOR.
Proof.
  split; [|split; [|split]].
  - apply (get_team_color_contract (env := demo_env net_down) None). left. reflexivity.
  - destruct (get_team_color_contract (env := demo_env net_down) (Some "Ferrari")) as (_ & Hkey & _).
    apply (Hkey "Ferrari"); [reflexivity | discriminate |].
    right. left. reflexivity.
  - destruct (get_team_color_contract (env := demo_env net_down) (Some "scuderia ferrari"))
      as (_ & _ & Hscan).
    destruct (Hscan "scuderia ferrari") as (Hfirst & _);
      [reflexivity | discriminate | apply assoc_None; reflexivity |].
    apply (Hfirst [("Red Bull", 0x0600EF)] "Ferrari" 0xDC0000
             (List.tl (List.tl TEAM_COLORS))).
    + reflexivity.
    + intros t c [H|[]]. injection H as <- <-. intros Hm.
      apply partial_match_spec in Hm. discriminate Hm.
    + apply partial_match_spec. reflexivity.
  - destruct (get_team_color_contract (env := demo_env net_down) (Some "Tesla")) as (_ & _ & Hscan).
    destruct (Hscan "Tesla") as (_ & Hnone);
      [reflexivity | discriminate | apply assoc_None; reflexivity |].
    apply Hnone. intros t c Hin Hm. apply partial_match_spec in Hm.
    assert (forallb (fun entry => negb (partial_match (env := demo_env net_down) (fst entry) "Tesla"))
              TEAM_COLORS = true) as Hall by reflexivity.
    rewrite forallb_forall in Hall. specialize (Hall (t, c) Hin).
    simpl in Hall. rewrite Hm in Hall. discriminate Hall.
Defined.

(** The order of the table decides between two entries that both match:
    ["bmw sauber"] is contained in the entry ["BMW Sauber"] only, but it
    contains the earlier entry ["Sauber"], whose colour it gets. *)
Example get_team_color_first_match :
  get_team_color (env := demo_env net_down) (Some "bmw sauber") = 0x9B0000 /\
  get_team_color (env := demo_env net_down) (Some "BMW Sauber") = 0x6CD3BF.
Proof. split; reflexivity. Qed.

(** A single-entrant field, with the reader of decimal numerals. *)
Example create_progress_bar_one_of_one :
  create_progress_bar (env := demo_env net_down) "1" 1 20 = Raise ZeroDivisionError.
Proof. reflexivity. Qed.







(** A countdown with all four parts: one day, one hour, one minute and
    one second (and a half) ahead. *)
Example countdown_text_parts :
  countdown_text (T0 + 90061500000) T0 = "🕒 **Countdown:** 1d 1h 1m 1s".
Proof. reflexivity. Qed.

Example f1_driver_fetches_directly :
  exists e,
    f1_driver (env := demo_env (net_ok driver_payload)) "hamilton" w_driver_cached
    = (Ok tt, World (cache w_driver_cached) T0
                [HttpGet (driver_url "hamilton"); ResponseSend (Rich e)]).
Proof. eexists. rewrite f1_driver_run. reflexivity. Qed.


(** The race-results handler on a payload of four entries: the
    acknowledgement, the request, the summary with the podium, one page. *)
Example f1_results_run :
  exists stored main page,
    f1_results (env := demo_env (net_ok (race_payload demo_grid))) 2024 16
      (World ∅ T0 [])
    = (Ok tt, World stored T0
                [Defer; HttpGet RESULTS_URL; FollowupSend (Rich main);
                 FollowupSend (Rich page)]) /\
    fields main
    = [("🏆 Podium",
        "🥇 **Ada First** (Ferrari)" +:+ nl +:+ "🥈 **Bob Second** (McLaren)" +:+ nl
        +:+ "🥉 **Cy Third** (Williams)" +:+ nl, false)] /\
    title page = "Positions 1-4" /\ length (fields page) = 4%nat /\
    color page = 0x0090FF.
Proof.
  destruct (f1_results (env := demo_env (net_ok (race_payload demo_grid))) 2024 16
              (World ∅ T0 [])) as [r w'] eqn:E.
  vm_compute in E. injection E as <- <-.
  do 3 eexists. split; [reflexivity|]. repeat split.
Qed.

(** The same handler on a payload with a single entry: the division by
    zero of the rank bar leaves the handler, and nothing is sent. *)
Example f1_results_single_entry :
  exists stored,
    f1_results (env := demo_env (net_ok (race_payload
        [demo_entry "1" "Ada" "First" "Ferrari" "1:30:00.000"]))) 2024 16
      (World ∅ T0 [])
    = (Raise ZeroDivisionError, World stored T0 [Defer; HttpGet RESULTS_URL]).
Proof.
  destruct (f1_results (env := demo_env (net_ok (race_payload
              [demo_entry "1" "Ada" "First" "Ferrari" "1:30:00.000"]))) 2024 16
              (World ∅ T0 [])) as [r w'] eqn:E.
  vm_compute in E. injection E as <- <-.
  eexists. reflexivity.
Qed.

(** * Part III: further properties of the code *)

(** ** Response cache *)

Lemma age_test (now fetched_at : Z) :
  Qltb (timestamp_of now - timestamp_of fetched_at) CACHE_EXPIRY
  = (now - fetched_at <? CACHE_EXPIRY_US).
Proof.
  apply eq_true_iff_eq. rewrite Z.ltb_lt. unfold Qltb, CACHE_EXPIRY_US; simpl. 
  rewrite Z.ltb_lt. lia.
Qed.

Section MoreProperties.
Context {env : Env}.

Lemma get_cached_response_fetched url force_refresh w payload w1 :
  get_cached_response url force_refresh w = (Ok payload, w1) ->
  trace w1 = trace w ++ [HttpGet url] ->
  requests_get_json url = Ok payload /\ w1 = after_store w url payload.
Proof.
  intros Hrun Htrace.
  assert (get_cached_response url true w = (Ok payload, w1)) as Hre.
  { destruct force_refresh; [exact Hrun|].
    rewrite get_cached_response_cases in Hrun.
    destruct (cache w !! url) as [[cached_data ts]|]; [|exact Hrun].
    destruct (Qltb _ _); [|exact Hrun].
    injection Hrun as _ <-. exfalso.
    apply (f_equal length) in Htrace. rewrite length_app in Htrace.
    simpl in Htrace. lia. }
  rewrite get_cached_response_refresh in Hre.
  destruct (requests_get_json url) as [p|e]; [|discriminate].
  injection Hre as <- <-. split; reflexivity.
Qed.

(** X1. What a call has fetched and stored is served again, without a
    request, by every later call without [force_refresh] made less than
    3600 s after it; from 3600 s on the request is sent again. *)
Theorem cache_round_trip (url : string) (force_refresh : bool)
    (w w1 later : world) (payload : json) :
  get_cached_response url force_refresh w = (Ok payload, w1) ->
  trace w1 = trace w ++ [HttpGet url] ->
  cache later = cache w1 ->
  (now_us later - now_us w < CACHE_EXPIRY_US ->
   get_cached_response url false later = (Ok payload, later)) /\
  (CACHE_EXPIRY_US <= now_us later - now_us w ->
   get_cached_response url false later
   = (Ok payload, after_store later url payload)).
Proof.
  intros Hrun Htrace Hcache.
  destruct (get_cached_response_fetched _ _ _ _ _ Hrun Htrace) as [Hnet ->].
  assert (cache later !! url = Some (payload, timestamp_of (now_us w))) as Hlk.
  { rewrite Hcache. simpl. apply lookup_insert_eq. }
  rewrite get_cached_response_cases, Hlk, age_test. split; intros Hage.
  - apply Z.ltb_lt in Hage. rewrite Hage. reflexivity.
  - apply Z.ltb_ge in Hage. rewrite Hage.
    rewrite get_cached_response_refresh, Hnet. reflexivity.
Qed.

(** X2. A call never touches the entry of another key, never removes an
    entry, never moves the clock, and adds at most one event, the request
    for its own key. *)
Theorem cache_frame (url : string) (force_refresh : bool) (w : world) :
  let w' := snd (get_cached_response url force_refresh w) in
  (forall other, other <> url -> cache w' !! other = cache w !! other) /\
  (forall key, is_Some (cache w !! key) -> is_Some (cache w' !! key)) /\
  now_us w' = now_us w /\
  (trace w' = trace w \/ trace w' = trace w ++ [HttpGet url]).
Proof.
  assert (forall w0,
    let w' := snd (get_cached_response url true w0) in
    (forall other, other <> url -> cache w' !! other = cache w0 !! other) /\
    (forall key, is_Some (cache w0 !! key) -> is_Some (cache w' !! key)) /\
    now_us w' = now_us w0 /\
    (trace w' = trace w0 \/ trace w' = trace w0 ++ [HttpGet url])) as Hre.
  { intros w0. rewrite get_cached_response_refresh.
    destruct (requests_get_json url) as [p|e]; simpl.
    - split; [|split; [|split]].
      + intros other Hne. apply lookup_insert_ne. congruence.
      + intros key Hsome. destruct (decide (url = key)) as [<-|Hne].
        * rewrite lookup_insert_eq. eauto.
        * rewrite lookup_insert_ne by exact Hne. exact Hsome.
      + reflexivity.
      + right. reflexivity.
    - repeat split; auto. }
  destruct force_refresh; [apply Hre|].
  rewrite get_cached_response_cases.
  destruct (cache w !! url) as [[cached_data ts]|]; [|apply Hre].
  destruct (Qltb _ _); [|apply Hre].
  simpl. repeat split; auto.
Qed.

(** ** Colour resolver *)

Lemma scan_colors_in (team_name : string) (items : list (string * Z)) :
  scan_colors team_name items = DEFAULT_COLOR \/
  exists team, In (team, scan_colors team_name items) items.
Proof.
  induction items as [|[t c] items IH]; simpl; [left; reflexivity|].
  destruct (partial_match t team_name).
  - right. exists t. left. reflexivity.
  - destruct IH as [IH|[team IH]]; [left; exact IH|].
    right. exists team. right. exact IH.
Qed.

Lemma assoc_Some_In {A} (k : string) (v : A) (l : list (string * A)) :
  assoc k l = Some v -> In (k, v) l.
Proof.
  induction l as [|[k' v'] l IH]; simpl; [discriminate|].
  destruct (String.eqb k k') eqn:E.
  - apply String.eqb_eq in E. intros [= ->]. left. congruence.
  - intros H. right. apply IH. exact H.
Qed.

Lemma TEAM_COLORS_are_rgb :
  List.Forall (fun entry => 0 <= snd entry <= 0xFFFFFF /\ snd entry <> DEFAULT_COLOR)
    TEAM_COLORS.
Proof.
  apply List.Forall_forall. intros [t c] Hin.
  assert (forallb (fun entry => (0 <=? snd entry) && (snd entry <=? 0xFFFFFF)
                                && negb (snd entry =? DEFAULT_COLOR))
            TEAM_COLORS = true) as Hall by reflexivity.
  rewrite forallb_forall in Hall. specialize (Hall (t, c) Hin). simpl in *.
  rewrite !andb_true_iff, negb_true_iff, !Z.leb_le, Z.eqb_neq in Hall. lia.
Qed.

Lemma get_team_color_in_table (team_name : option string) :
  get_team_color team_name = DEFAULT_COLOR \/
  exists team, In (team, get_team_color team_name) TEAM_COLORS.
Proof.
  destruct team_name as [[|a name]|]; [left; reflexivity| |left; reflexivity].
  unfold get_team_color.
  destruct (assoc (String a name) TEAM_COLORS) as [c|] eqn:E.
  - right. exists (String a name). apply assoc_Some_In. exact E.
  - apply scan_colors_in.
Qed.

(** X3. The resolver always answers with a 24-bit colour: the default
    one, or the colour of an entry of the table. *)
Theorem get_team_color_is_rgb (team_name : option string) :
  (get_team_color team_name = DEFAULT_COLOR \/
   exists team, In (team, get_team_color team_name) TEAM_COLORS) /\
  0 <= get_team_color team_name <= 0xFFFFFF.
Proof.
  split; [apply get_team_color_in_table|].
  destruct (get_team_color_in_table team_name) as [->|[team Hin]].
  - unfold DEFAULT_COLOR. lia.
  - pose proof TEAM_COLORS_are_rgb as Hall. rewrite List.Forall_forall in Hall.
    apply (Hall _ Hin).
Qed.

Lemma occurs_in_refl (s : string) : occurs_in s s.
Proof. exists EmptyString, EmptyString. rewrite append_empty_r. reflexivity. Qed.

Lemma scan_colors_default (team_name : string) (items : list (string * Z)) :
  (forall t c, In (t, c) items -> c <> DEFAULT_COLOR) ->
  scan_colors team_name items = DEFAULT_COLOR ->
  forall t c, In (t, c) items -> ~ matches_ignoring_case t team_name.
Proof.
  induction items as [|[t0 c0] items IH]; simpl; intros Hcol Hscan t c Hin;
    [contradiction|].
  destruct (partial_match t0 team_name) eqn:E.
  - exfalso. apply (Hcol t0 c0); [left; reflexivity|exact Hscan].
  - destruct Hin as [Heq|Hin].
    + injection Heq as <- <-. intros Hm. apply partial_match_spec in Hm. congruence.
    + apply (IH (fun t' c' H' => Hcol t' c' (or_intror H')) Hscan t c Hin).
Qed.

(** X4. The default colour is the answer exactly when the name is absent
    or empty, or when no entry of the table matches it: a name that
    matches an entry never gets the default colour. *)
Theorem get_team_color_default_iff (team_name : option string) :
  get_team_color team_name = DEFAULT_COLOR <->
  team_name = None \/ team_name = Some EmptyString \/
  exists name, team_name = Some name /\
    forall t c, In (t, c) TEAM_COLORS -> ~ matches_ignoring_case t name.
Proof.
  assert (forall t c, In (t, c) TEAM_COLORS -> c <> DEFAULT_COLOR) as Hcol.
  { intros t c Hin. pose proof TEAM_COLORS_are_rgb as Hall.
    rewrite List.Forall_forall in Hall. apply (Hall _ Hin). }
  split.
  - intros Hdef. destruct team_name as [[|a name]|]; [auto|  |auto].
    right. right. exists (String a name). split; [reflexivity|].
    unfold get_team_color in Hdef.
    destruct (assoc (String a name) TEAM_COLORS) as [c|] eqn:E.
    + exfalso. apply assoc_Some_In in E. subst c. exact (Hcol _ _ E eq_refl).
    + apply scan_colors_default; assumption.
  - intros [->|[->|(name & -> & Hno)]]; [reflexivity|reflexivity|].
    destruct name as [|a name]; [reflexivity|]. unfold get_team_color.
    destruct (assoc (String a name) TEAM_COLORS) as [c|] eqn:E.
    + exfalso. apply assoc_Some_In in E. apply (Hno _ _ E).
      left. apply occurs_in_refl.
    + apply scan_colors_none. exact Hno.
Qed.

(** ** Rank bar *)

Lemma filled_beyond_field (position total_drivers width : Z) :
  1 < total_drivers -> total_drivers <= position ->
  Qtrunc (inject_Z width *
          max0 (inject_Z (total_drivers - position) / inject_Z (total_drivers - 1)))
  = 0.
Proof.
  intros Ht Hp. unfold max0. rewrite ratio_sign by lia.
  assert ((0 <? total_drivers - position) = false) as -> by (apply Z.ltb_ge; lia).
  unfold Qtrunc; simpl. rewrite Z.mul_0_r. reflexivity.
Qed.

Lemma filled_bounds (position total_drivers width : Z) :
  1 < total_drivers -> 1 <= position -> 0 <= width ->
  0 <= Qtrunc (inject_Z width *
         max0 (inject_Z (total_drivers - position) / inject_Z (total_drivers - 1)))
    <= width.
Proof.
  intros Ht Hp Hw. destruct (Z.le_gt_cases position total_drivers) as [Hle|Hgt].
  - rewrite filled_glyphs by lia. split.
    + apply Z.div_pos; nia.
    + apply Z.div_le_upper_bound; nia.
  - rewrite filled_beyond_field by lia. lia.
Qed.

(** X5. A better position never gets a shorter bar: for two positions
    [p <= q] of the same field, the bar of [p] has at least as many full
    glyphs as the bar of [q]. *)
Theorem create_progress_bar_monotone (pos_p pos_q : string)
    (p q total_drivers width : Z) :
  int_of_str pos_p = Ok p -> int_of_str pos_q = Ok q ->
  1 < total_drivers -> 0 <= width -> p <= q ->
  exists filled_p filled_q,
    create_progress_bar pos_p total_drivers width
      = Ok (str_mul "█" filled_p +:+ str_mul "░" (width - filled_p)) /\
    create_progress_bar pos_q total_drivers width
      = Ok (str_mul "█" filled_q +:+ str_mul "░" (width - filled_q)) /\
    0 <= filled_q <= filled_p.
Proof.
  intros Hp Hq Ht Hw Hpq.
  rewrite (create_progress_bar_ok pos_p p) by (assumption || lia).
  rewrite (create_progress_bar_ok pos_q q) by (assumption || lia).
  cbv zeta. eexists. eexists. split; [reflexivity|]. split; [reflexivity|].
  destruct (Z.le_gt_cases q total_drivers) as [Hle|Hgt].
  - rewrite !filled_glyphs by lia. split.
    + apply Z.div_pos; nia.
    + apply Z.div_le_mono; nia.
  - rewrite (filled_beyond_field q) by lia. split; [lia|].
    destruct (Z.le_gt_cases p total_drivers) as [Hle'|Hgt'].
    + rewrite filled_glyphs by lia. apply Z.div_pos; nia.
    + rewrite filled_beyond_field by lia. lia.
Qed.

(** X6. For every position from 1 on, the bar has exactly [width] glyphs,
    the full ones first; a position at or beyond the size of the field
    gives [width] empty glyphs, and no exception. *)
Theorem create_progress_bar_width (position : string) (p total_drivers width : Z) :
  int_of_str position = Ok p -> 1 < total_drivers -> 1 <= p -> 0 <= width ->
  (exists filled,
     0 <= filled <= width /\
     create_progress_bar position total_drivers width
       = Ok (str_mul "█" filled +:+ str_mul "░" (width - filled))) /\
  (total_drivers <= p ->
   create_progress_bar position total_drivers width = Ok (str_mul "░" width)).
Proof.
  intros Hp Ht Hpos Hw.
  rewrite (create_progress_bar_ok position p) by (assumption || lia).
  cbv zeta. split.
  - eexists. split; [|reflexivity]. apply filled_bounds; assumption.
  - intros Hbeyond. rewrite filled_beyond_field by lia.
    rewrite Z.sub_0_r. reflexivity.
Qed.

(** ** Race results: the loop *)

Ltac split_lap row :=
  destruct (fastest_lap row)
    as [[?lap_time [| | |[|[[] [] [] [] [] [] [] []] []]| |]]|].

Lemma add_result_inv (total_drivers : Z) (st st' : loop_state) (row : result_row) :
  add_result total_drivers st row = Ok st' ->
  exists progress,
    create_progress_bar (position row) total_drivers 20 = Ok progress /\
    results st'
    = results st ++ [(position_int row, result_entry row progress, team_color row)] /\
    fastest_lap_driver st'
    = match rank1_lap row with
      | Some _ => Some (driver_name row)
      | None => fastest_lap_driver st
      end /\
    fastest_lap_time st'
    = match rank1_lap row with
      | Some lap_time => Some lap_time
      | None => fastest_lap_time st
      end.
Proof.
  unfold add_result, rank1_lap, result_entry. intros H.
  destruct (create_progress_bar (position row) total_drivers 20) as [progress|e] eqn:Hbar.
  - exists progress. split; [reflexivity|].
    destruct (position_int row <=? 3);
      [destruct (list_getitem MEDALS (position_int row - 1)) as [medal|e]|];
      split_lap row; simpl in H; try discriminate H;
      injection H as <-; repeat split; reflexivity.
  - exfalso.
    destruct (position_int row <=? 3);
      [destruct (list_getitem MEDALS (position_int row - 1)) as [medal|e']|];
      split_lap row; simpl in H; discriminate H.
Qed.

Lemma add_result_medal_error (total_drivers : Z) (st : loop_state)
    (row : result_row) (e : exn) :
  position_int row <= 3 ->
  list_getitem MEDALS (position_int row - 1) = Raise e ->
  add_result total_drivers st row = Raise e.
Proof.
  intros Hp Hmedal. unfold add_result.
  assert ((position_int row <=? 3) = true) as -> by (apply Z.leb_le; exact Hp).
  rewrite Hmedal. split_lap row; reflexivity.
Qed.

Lemma add_result_medal_ok (total_drivers : Z) (st : loop_state)
    (row : result_row) (medal : string) :
  position_int row <= 3 ->
  list_getitem MEDALS (position_int row - 1) = Ok medal ->
  total_drivers <> 1 ->
  int_of_str (position row) = Ok (position_int row) ->
  exists st',
    add_result total_drivers st row = Ok st' /\
    podium_text st' = podium_text st +:+ podium_line medal row.
Proof.
  intros Hp Hmedal Ht Hint. unfold add_result.
  assert ((position_int row <=? 3) = true) as -> by (apply Z.leb_le; exact Hp).
  rewrite Hmedal, (create_progress_bar_ok _ _ _ _ Hint Ht).
  split_lap row; simpl; eexists; split; reflexivity.
Qed.

(** X7. The medal is taken from the list of three by the index
    [position - 1], and Python counts a negative index from the end: a
    row with position 0, -1 or -2 is put on the podium, with the bronze,
    silver or gold medal, and a row with a position of -3 or less makes
    the loop raise [IndexError]. *)
Theorem podium_of_nonpositive_position (total_drivers : Z) (st : loop_state)
    (row : result_row) :
  (position_int row <= -3 ->
   add_result total_drivers st row = Raise (IndexError "list index out of range")) /\
  (-2 <= position_int row <= 0 ->
   total_drivers <> 1 ->
   int_of_str (position row) = Ok (position_int row) ->
   exists st',
     add_result total_drivers st row = Ok st' /\
     podium_text st'
     = podium_text st +:+ podium_line (medal_of (position_int row + 3)) row).
Proof.
  split.
  - intros Hp. apply add_result_medal_error; [lia|].
    unfold list_getitem, MEDALS. simpl length.
    assert ((position_int row - 1 <? 0) = true) as -> by (apply Z.ltb_lt; lia).
    assert ((0 <=? position_int row - 1 + Z.of_nat 3) = false) as ->
      by (apply Z.leb_gt; lia).
    reflexivity.
  - intros Hp Ht Hint. apply add_result_medal_ok; try assumption; [lia|].
    assert (position_int row = 0 \/ position_int row = -1 \/ position_int row = -2)
      as [-> | [-> | ->]] by lia; reflexivity.
Qed.

Lemma add_results_inv (total_drivers : Z) (rows : list result_row)
    (st st' : loop_state) :
  add_results total_drivers rows st = Ok st' ->
  map (fun r => (fst (fst r), snd r)) (results st')
  = map (fun r => (fst (fst r), snd r)) (results st)
    ++ map (fun row => (position_int row, team_color row)) rows.
Proof.
  revert st. induction rows as [|row rows IH]; intros st; simpl.
  - intros [= <-]. rewrite app_nil_r. reflexivity.
  - intros H. apply result_bind_Ok in H as (st1 & Hst1 & H).
    apply add_result_inv in Hst1 as (progress & _ & Hres & _).
    rewrite (IH st1 H), Hres, map_app, <- app_assoc. reflexivity.
Qed.

(** The rows of the payload that hold the fastest lap, last first *)
Lemma add_results_fastest (total_drivers : Z) (rows : list result_row)
    (st st' : loop_state) :
  add_results total_drivers rows st = Ok st' ->
  (forall pre row post lap_time,
     rows = pre ++ row :: post ->
     rank1_lap row = Some lap_time ->
     (forall r, In r post -> rank1_lap r = None) ->
     fastest_lap_driver st' = Some (driver_name row) /\
     fastest_lap_time st' = Some lap_time) /\
  ((forall r, In r rows -> rank1_lap r = None) ->
   fastest_lap_driver st' = fastest_lap_driver st /\
   fastest_lap_time st' = fastest_lap_time st).
Proof.
  revert st. induction rows as [|row0 rows IH]; intros st; simpl.
  - intros [= <-]. split; [|auto].
    intros [|? ?] ? ? ? H; discriminate H.
  - intros H. apply result_bind_Ok in H as (st1 & Hst1 & H).
    apply add_result_inv in Hst1 as (progress & _ & _ & Hdrv & Htime).
    destruct (IH st1 H) as [IHlast IHnone]. split.
    + intros pre row post lap_time Hsplit Hlap Hpost.
      destruct pre as [|x pre]; simpl in Hsplit; injection Hsplit as -> ->.
      * destruct (IHnone Hpost) as [-> ->]. rewrite Hdrv, Htime, Hlap. auto.
      * apply (IHlast pre row post lap_time eq_refl Hlap Hpost).
    + intros Hnone. destruct (IHnone (fun r Hr => Hnone r (or_intror Hr))) as [-> ->].
      rewrite Hdrv, Htime, (Hnone row0 (or_introl eq_refl)). auto.
Qed.

(** X8. After the loop, the fastest lap belongs to the last entry of the
    payload whose [FastestLap] has rank ["1"]: its driver's name and lap
    time are kept; when no entry has one, none is kept. *)
Theorem fastest_lap_is_last_rank1 (drivers : list json) (rows : list result_row)
    (st : loop_state) :
  read_results drivers = Ok rows ->
  process_results (Z.of_nat (length drivers)) drivers (LoopState "" [] None None)
    = Ok st ->
  (forall pre row post lap_time,
     rows = pre ++ row :: post ->
     rank1_lap row = Some lap_time ->
     (forall r, In r post -> rank1_lap r = None) ->
     fastest_lap_driver st = Some (driver_name row) /\
     fastest_lap_time st = Some lap_time) /\
  ((forall r, In r rows -> rank1_lap r = None) ->
   fastest_lap_driver st = None /\ fastest_lap_time st = None).
Proof.
  intros Hread Hloop.
  destruct (process_results_read (Z.of_nat (length drivers)) drivers rows
              (LoopState "" [] None None) Hread) as (Heq & _ & _).
  rewrite Heq in Hloop. apply (add_results_fastest _ _ _ _ Hloop).
Qed.

(** X9. The loop keeps one detail row per entry of the payload, in the
    order of the payload, each with the entry's position as an integer
    and the colour that the resolver gives to its constructor. *)
Theorem results_follow_payload (drivers : list json) (rows : list result_row)
    (st : loop_state) :
  read_results drivers = Ok rows ->
  process_results (Z.of_nat (length drivers)) drivers (LoopState "" [] None None)
    = Ok st ->
  map (fun r => (fst (fst r), snd r)) (results st)
  = map (fun row => (position_int row, get_team_color (Some (team row)))) rows /\
  length (results st) = length drivers.
Proof.
  intros Hread Hloop.
  destruct (process_results_read (Z.of_nat (length drivers)) drivers rows
              (LoopState "" [] None None) Hread) as (Heq & Hlen & _).
  rewrite Heq in Hloop. apply add_results_inv in Hloop. simpl in Hloop.
  assert (map (fun row => (position_int row, team_color row)) rows
          = map (fun row => (position_int row, get_team_color (Some (team row)))) rows)
    as Hcol.
  { clear Hloop Heq Hlen. revert rows Hread.
    induction drivers as [|d drivers IH]; intros rows; simpl.
    - intros [= <-]. reflexivity.
    - intros H. apply result_bind_Ok in H as (row & Hrow & H).
      apply result_bind_Ok in H as (rows' & Hrows & H). injection H as <-.
      simpl. rewrite (IH rows' Hrows). f_equal. f_equal.
      unfold read_result in Hrow.
      repeat (apply result_bind_Ok in Hrow as (? & _ & Hrow)).
      injection Hrow as <-. reflexivity. }
  rewrite Hloop, Hcol. split; [reflexivity|].
  rewrite <- Hlen. apply (f_equal length) in Hloop.
  rewrite !length_map in Hloop. exact Hloop.
Qed.

(** ** Race results: sorting and pages *)

Lemma sort_by_sorted_id {A} (key : A -> Z) (l : list A) :
  StronglySorted (key_le key) l -> sort_by key l = l.
Proof.
  induction 1 as [|x l Hs IH Hall]; simpl; [reflexivity|].
  fold (sort_by key l). rewrite IH.
  destruct l as [|y l]; [reflexivity|]. simpl.
  inversion Hall as [|? ? Hxy _]; subst. unfold key_le in Hxy.
  apply Z.leb_le in Hxy. rewrite Hxy. reflexivity.
Qed.

(** X10. Rows that arrive in rank order are left as they are: the sort
    changes nothing, and the pages put end to end are the rows in the
    order of the payload. *)
Theorem sorted_rows_keep_their_order (rs : list (Z * string * Z)) :
  StronglySorted (key_le sort_key) rs ->
  sort_by_position rs = rs /\ concat (chunks (sort_by_position rs)) = rs.
Proof.
  intros Hs. unfold sort_by_position. rewrite (sort_by_sorted_id _ _ Hs).
  split; [reflexivity|apply chunks_concat].
Qed.

Lemma fold_left_min_first (x : Z) (l : list Z) :
  List.Forall (fun y => x <= y) l -> fold_left Z.min l x = x.
Proof.
  induction 1 as [|y l Hy _ IH]; simpl; [reflexivity|].
  rewrite Z.min_l by exact Hy. exact IH.
Qed.

Lemma last_cons {A} (x y : A) (l : list A) :
  List.last (y :: l) x = List.last l y.
Proof.
  revert x y. induction l as [|z l IH]; intros x y; [reflexivity|].
  change (List.last (z :: l) x = List.last (z :: l) y).
  rewrite (IH x z), (IH y z). reflexivity.
Qed.

Lemma fold_left_max_last (x : Z) (l : list Z) :
  StronglySorted Z.le (x :: l) -> fold_left Z.max l x = List.last l x.
Proof.
  revert x. induction l as [|y l IH]; intros x Hs; [reflexivity|].
  inversion Hs as [|? ? Hs' Hall]; subst. inversion Hall as [|? ? Hxy _]; subst.
  simpl fold_left. rewrite Z.max_r by exact Hxy. rewrite (IH y Hs').
  symmetry. apply last_cons.
Qed.

Lemma page_fold (chunk : list (Z * string * Z)) (e : embed) :
  let e' := fold_left
    (fun e r => set_color (add_field e zero_width_space (snd (fst r)) true) (snd r))
    chunk e in
  title e' = title e /\ description e' = description e /\
  fields e' = fields e ++ map page_field chunk /\
  color e' = List.last (map snd chunk) (color e).
Proof.
  revert e. induction chunk as [|r chunk IH]; intros e; simpl.
  - rewrite app_nil_r. auto.
  - destruct (IH (set_color (add_field e zero_width_space (snd (fst r)) true) (snd r)))
      as (Ht & Hd & Hf & Hc).
    rewrite Ht, Hd, Hf, Hc. simpl. rewrite <- app_assoc. repeat split.
    symmetry. apply last_cons.
Qed.

Lemma sorted_keys (chunk : list (Z * string * Z)) :
  StronglySorted (key_le sort_key) chunk ->
  StronglySorted Z.le (map sort_key chunk).
Proof.
  induction 1 as [|r chunk Hs IH Hall]; simpl; constructor; [exact IH|].
  apply List.Forall_forall. intros k Hk. apply in_map_iff in Hk as (r' & <- & Hr').
  rewrite List.Forall_forall in Hall. apply (Hall r' Hr').
Qed.

(** X11. The embed of a page of rows in rank order: its title names the
    positions of its first and last rows, it has one inline field per
    row, in order, and its colour is the colour of its last row. *)
Theorem page_embed_shape (first : Z * string * Z) (rest : list (Z * string * Z)) :
  StronglySorted (key_le sort_key) (first :: rest) ->
  exists e,
    page_embed (first :: rest) = Ok e /\
    title e = "Positions " +:+ str_of_Z (sort_key first) +:+ "-"
              +:+ str_of_Z (sort_key (List.last rest first)) /\
    description e = None /\
    fields e = map page_field (first :: rest) /\
    color e = snd (List.last rest first).
Proof.
  intros Hs. pose proof (sorted_keys _ Hs) as Hkeys. simpl in Hkeys.
  unfold page_embed. simpl map. unfold py_min, py_max.
  rewrite fold_left_min_first
    by (inversion Hkeys; subst; assumption).
  rewrite (fold_left_max_last _ _ Hkeys). simpl result_bind.
  eexists. split; [reflexivity|].
  match goal with
  | |- context [fold_left ?f ?l ?e0] =>
      destruct (page_fold l e0) as (Ht & Hd & Hf & Hc)
  end.
  rewrite Ht, Hd, Hf, Hc. simpl.
  assert (forall (l : list (Z * string * Z)) d,
            List.last (map sort_key l) (sort_key d) = sort_key (List.last l d)) as Hlast1.
  { intros l. induction l as [|x l IH]; intros d; [reflexivity|].
    simpl. destruct l; [reflexivity|]. apply IH. }
  assert (forall (l : list (Z * string * Z)) d,
            List.last (map snd l) (snd d) = snd (List.last l d)) as Hlast2.
  { intros l. induction l as [|x l IH]; intros d; [reflexivity|].
    simpl. destruct l; [reflexivity|]. apply IH. }
  rewrite Hlast1. repeat split.
  destruct rest as [|x rest]; [reflexivity|].
  change (List.last (map snd (x :: rest)) (snd first) = snd (List.last (x :: rest) first)).
  apply Hlast2.
Qed.

(** ** Race results: the handler *)

Lemma try_except_bind_lift {A B} (r : result A) (k : A -> M B)
    (catches : exn -> bool) (handler : exn -> M B) (w : world) :
  try_except (bind (lift r) k) catches handler w
  = match r with
    | Ok a => try_except (k a) catches handler w
    | Raise e => if catches e then handler e w else (Raise e, w)
    end.
Proof. unfold try_except, bind, lift. destruct r; reflexivity. Qed.

Lemma try_except_bind_utc_now {B} (k : Z -> M B)
    (catches : exn -> bool) (handler : exn -> M B) (w : world) :
  try_except (bind utc_now k) catches handler w
  = try_except (k (now_us w)) catches handler w.
Proof. reflexivity. Qed.

Lemma try_except_bind_emit {B} (ev : event) (k : unit -> M B)
    (catches : exn -> bool) (handler : exn -> M B) (w : world) :
  try_except (bind (emit ev) k) catches handler w
  = try_except (k tt) catches handler (after_event w ev).
Proof. reflexivity. Qed.

Ltac try_step :=
  rewrite try_except_bind_lift;
  match goal with
  | |- match ?r with Ok _ => _ | Raise _ => _ end = _ =>
      destruct r as [?x|?e]; cbn [result_bind]; [|reflexivity]
  end.

Lemma f1_results_unfold (year round : Z) (w : world) :
  f1_results year round w =
    match get_cached_response (results_url year round) false (acknowledged w) with
    | (Raise e, w1) => (Raise e, w1)
    | (Ok response, w1) =>
        match race_summary year response (now_us w1) with
        | Ok (main, rs) =>
            try_except (send_pages (chunks (sort_by_position rs)))
              index_or_key_error
              (fun e => emit (FollowupSend (results_error e)))
              (after_event w1 (FollowupSend (Rich main)))
        | Raise e =>
            if index_or_key_error e
            then (Ok tt, after_event w1 (FollowupSend (results_error e)))
            else (Raise e, w1)
        end
    end.
Proof.
  unfold f1_results. unfold bind at 1, emit at 1. cbv beta iota zeta.
  change (World (cache w) (now_us w) (trace w ++ [Defer])) with (acknowledged w).
  unfold bind at 1. fold (results_url year round).
  destruct (get_cached_response (results_url year round) false (acknowledged w))
    as [[response|e] w1]; [|reflexivity].
  unfold race_summary, race_of.
  do 7 try_step.
  rewrite try_except_bind_utc_now, try_except_bind_emit. reflexivity.
Qed.

Lemma process_results_length (total_drivers : Z) (drivers : list json)
    (st st' : loop_state) :
  process_results total_drivers drivers st = Ok st' ->
  length (results st') = (length (results st) + length drivers)%nat.
Proof.
  revert st. induction drivers as [|d drivers IH]; intros st; simpl.
  - intros [= <-]. lia.
  - intros H. apply result_bind_Ok in H as (row & _ & H).
    apply result_bind_Ok in H as (st1 & Hst1 & H).
    apply add_result_inv in Hst1 as (progress & _ & Hres & _).
    rewrite (IH st1 H), Hres, length_app. simpl. lia.
Qed.

Lemma race_summary_rows (year : Z) (response : json) (now : Z) (main : embed)
    (rs : list (Z * string * Z)) :
  race_summary year response now = Ok (main, rs) ->
  exists drivers st,
    race_entries response = Ok drivers /\
    process_results (Z.of_nat (length drivers)) drivers (LoopState "" [] None None)
      = Ok st /\
    rs = results st /\ length rs = length drivers.
Proof.
  unfold race_summary, race_entries. intros H.
  apply result_bind_Ok in H as (race_data & -> & H).
  do 4 (apply result_bind_Ok in H as (? & _ & H)).
  apply result_bind_Ok in H as (drivers & Hd & H).
  apply result_bind_Ok in H as (st & Hst & H).
  injection H as _ <-. exists drivers, st. cbn [result_bind].
  split; [exact Hd|]. split; [exact Hst|]. split; [reflexivity|].
  apply process_results_length in Hst. simpl in Hst. exact Hst.
Qed.

(** X12. When the body of the [try] block builds the summary, the handler
    ends normally and has sent, after the acknowledgement and the lookup,
    the summary and then one message per page: ceil(n/7) pages for the
    [n] entries of the payload, none for an empty list. *)
Theorem f1_results_messages (year round : Z) (w w1 : world) (response : json)
    (main : embed) (rs : list (Z * string * Z)) :
  get_cached_response (results_url year round) false (acknowledged w)
    = (Ok response, w1) ->
  race_summary year response (now_us w1) = Ok (main, rs) ->
  exists drivers embeds,
    race_entries response = Ok drivers /\
    length embeds = ((length drivers + 6) / 7)%nat /\
    List.Forall2 page_sent (chunks (sort_by_position rs)) embeds /\
    f1_results year round w
    = (Ok tt, World (cache w1) (now_us w1)
                (trace w1 ++ FollowupSend (Rich main)
                             :: map (fun e => FollowupSend (Rich e)) embeds)).
Proof.
  intros Hget Hsum.
  destruct (race_summary_rows _ _ _ _ _ Hsum) as (drivers & st & Hd & _ & _ & Hlen).
  destruct (send_pages_trace (chunks (sort_by_position rs))
              (after_event w1 (FollowupSend (Rich main))) (chunks_nonempty _))
    as (embeds & Hall & Hrun).
  exists drivers, embeds. split; [exact Hd|]. split.
  - rewrite <- (Forall2_length _ _ _ Hall), chunks_length.
    unfold sort_by_position.
    rewrite <- (Permutation_length (sort_by_perm sort_key rs)), Hlen. reflexivity.
  - split; [exact Hall|].
    rewrite f1_results_unfold, Hget, Hsum. unfold try_except. rewrite Hrun.
    simpl. rewrite <- app_assoc. reflexivity.
Qed.

(** X13. When the body of the [try] block raises [IndexError] or
    [KeyError] (no race in the payload, a missing key), the handler ends
    normally with exactly one message, the error text that carries the
    text of the exception; any other exception leaves the handler, and
    nothing is sent. A payload whose list of races is empty is the first
    case. *)
Theorem f1_results_failure (year round : Z) (w w1 : world) (response : json)
    (e : exn) :
  get_cached_response (results_url year round) false (acknowledged w)
    = (Ok response, w1) ->
  race_summary year response (now_us w1) = Raise e ->
  f1_results year round w
  = (if index_or_key_error e
     then (Ok tt, after_event w1 (FollowupSend (results_error e)))
     else (Raise e, w1)) /\
  (forall table, getitem response "MRData" = Ok table ->
     forall races, getitem table "RaceTable" = Ok races ->
     getitem races "Races" = Ok (JArr []) ->
     e = IndexError "list index out of range").
Proof.
  intros Hget Hsum. split.
  - rewrite f1_results_unfold, Hget, Hsum. reflexivity.
  - intros table Htable races Hraces Hempty.
    unfold race_summary, race_of in Hsum.
    rewrite Htable in Hsum. cbn [result_bind] in Hsum.
    rewrite Hraces in Hsum. cbn [result_bind] in Hsum.
    rewrite Hempty in Hsum. cbn [result_bind getitem0] in Hsum.
    congruence.
Qed.

Lemma add_result_single (st : loop_state) (row : result_row) :
  is_ok (add_result 1 st row) = false.
Proof.
  destruct (add_result 1 st row) as [st'|e] eqn:E; [|reflexivity].
  apply add_result_inv in E as (progress & Hbar & _).
  unfold create_progress_bar in Hbar.
  destruct (int_of_str (position row)); discriminate Hbar.
Qed.

(** X14. A payload with exactly one entry never gets its summary: the
    loop cannot end (the rank bar divides by zero), so the handler either
    sends the error text alone or lets an exception out, and when the
    race and the entry are readable and the position is at least 1, that
    exception is [ZeroDivisionError], which the handler does not catch. *)
Theorem f1_results_single_entry_never_summarised (year round : Z) (w w1 : world)
    (response d : json) :
  get_cached_response (results_url year round) false (acknowledged w)
    = (Ok response, w1) ->
  race_entries response = Ok [d] ->
  exists e,
    race_summary year response (now_us w1) = Raise e /\
    f1_results year round w
    = (if index_or_key_error e
       then (Ok tt, after_event w1 (FollowupSend (results_error e)))
       else (Raise e, w1)) /\
    (forall race_name circuit country date row,
       (race_data <~ race_of response ;; get_str race_data "raceName") = Ok race_name ->
       (race_data <~ race_of response ;; c <~ getitem race_data "Circuit" ;;
        get_str c "circuitName") = Ok circuit ->
       (race_data <~ race_of response ;; c <~ getitem race_data "Circuit" ;;
        l <~ getitem c "Location" ;; get_str l "country") = Ok country ->
       (race_data <~ race_of response ;; get_str race_data "date") = Ok date ->
       read_result d = Ok row -> 1 <= position_int row ->
       e = ZeroDivisionError).
Proof.
  intros Hget Hent.
  assert (forall main rs, race_summary year response (now_us w1) <> Ok (main, rs))
    as Hnever.
  { intros main rs Hsum.
    destruct (race_summary_rows _ _ _ _ _ Hsum) as (drivers & st & Hd & Hst & _).
    rewrite Hent in Hd. injection Hd as <-.
    change (Z.of_nat (length [d])) with 1 in Hst. cbn [process_results] in Hst.
    apply result_bind_Ok in Hst as (row & _ & Hst).
    apply result_bind_Ok in Hst as (st1 & Hst1 & _).
    pose proof (add_result_single (LoopState "" [] None None) row) as Hs.
    rewrite Hst1 in Hs. discriminate Hs. }
  destruct (race_summary year response (now_us w1)) as [[main rs]|e] eqn:Hsum;
    [exfalso; exact (Hnever main rs eq_refl)|].
  exists e. split; [reflexivity|]. split.
  - rewrite f1_results_unfold, Hget, Hsum. reflexivity.
  - intros race_name circuit country date row Hname Hcircuit Hcountry Hdate Hrow Hpos.
    unfold race_summary in Hsum. unfold race_entries in Hent.
    destruct (race_of response) as [race_data|?]; [|discriminate Hent].
    cbn [result_bind] in *.
    rewrite Hname in Hsum. cbn [result_bind] in Hsum.
    rewrite Hcircuit in Hsum. cbn [result_bind] in Hsum.
    rewrite Hcountry in Hsum. cbn [result_bind] in Hsum.
    rewrite Hdate in Hsum. cbn [result_bind] in Hsum.
    rewrite Hent in Hsum. cbn [result_bind] in Hsum.
    change (Z.of_nat (length [d])) with 1 in Hsum.
    cbn [process_results] in Hsum. rewrite Hrow in Hsum. cbn [result_bind] in Hsum.
    assert (add_result 1 (LoopState "" [] None None) row = Raise ZeroDivisionError)
      as Hadd.
    { pose proof (read_result_position d row Hrow) as Hint.
      unfold add_result, create_progress_bar. rewrite Hint. cbn [result_bind].
      destruct (position_int row <=? 3) eqn:E.
      - apply Z.leb_le in E. rewrite medal_of_rank by lia.
        split_lap row; reflexivity.
      - split_lap row; reflexivity. }
    rewrite Hadd in Hsum. cbn [result_bind] in Hsum. congruence.
Qed.

(** ** Next event *)

(** X15. The countdown shows whole seconds: two instants ahead with the
    same number of whole seconds left give the same text, and an event
    less than one second ahead shows "0d 0h 0m 0s", not the
    started-or-completed message. *)
Theorem countdown_whole_seconds (race_datetime now : Z) :
  now < race_datetime ->
  (forall race_datetime' now',
     now' < race_datetime' ->
     (race_datetime' - now') / 1000000 = (race_datetime - now) / 1000000 ->
     countdown_text race_datetime' now' = countdown_text race_datetime now) /\
  (race_datetime - now < 1000000 ->
   countdown_text race_datetime now = "🕒 **Countdown:** 0d 0h 0m 0s").
Proof.
  intros Hlt. split.
  - intros race_datetime' now' Hlt' Hsame.
    rewrite (countdown_text_future _ _ Hlt), (countdown_text_future _ _ Hlt').
    cbv zeta. rewrite Hsame. reflexivity.
  - intros Hsub. rewrite (countdown_text_future _ _ Hlt). cbv zeta.
    rewrite (Z.div_small (race_datetime - now) 1000000) by lia. reflexivity.
Qed.




(** X17. When the embed of the next event cannot be built, the handler
    sends exactly one message, the error text, for an [IndexError] or a
    [KeyError] (no race in the payload, a missing key), and lets any
    other exception out with nothing sent: so does a date or a time that
    [fromisoformat] refuses. In both cases the payload received has
    replaced the entry of the cache. *)
Theorem f1_next_failure (w : world) (payload : json) (e : exn) :
  requests_get_json NEXT_URL = Ok payload ->
  next_event_embed payload (now_us w) = Raise e ->
  let w1 := World (<[NEXT_URL := (payload, timestamp_of (now_us w))]> (cache w))
                  (now_us w) (trace w ++ [Defer; HttpGet NEXT_URL]) in
  f1_next w
  = (if index_or_key_error e
     then (Ok tt, after_event w1 (FollowupSend (Text
             ("❌ Could not fetch the next race details. Error: " +:+ str_exn e))))
     else (Raise e, w1)) /\
  (forall race race_name circuit country locality,
     race_of payload = Ok race ->
     get_str race "raceName" = Ok race_name ->
     (c <~ getitem race "Circuit" ;; get_str c "circuitName") = Ok circuit ->
     (c <~ getitem race "Circuit" ;; l <~ getitem c "Location" ;;
      get_str l "country") = Ok country ->
     (c <~ getitem race "Circuit" ;; l <~ getitem c "Location" ;;
      get_str l "locality") = Ok locality ->
     forall err, read_datetime race = Raise err -> e = err).
Proof.
  intros Hnet Hembed w1. split.
  - unfold f1_next. unfold bind at 1, emit at 1. cbv beta iota.
    unfold bind at 1. rewrite get_cached_response_refresh, Hnet.
    unfold after_store. cbn [cache now_us trace]. rewrite <- app_assoc.
    rewrite next_event_reply_run. cbn [cache now_us trace].
    rewrite Hembed. reflexivity.
  - intros race race_name circuit country locality Hrace Hname Hcircuit Hcountry
      Hlocality err Hdt.
    unfold next_event_embed in Hembed. fold (race_of payload) in Hembed.
    rewrite Hrace in Hembed. cbn [result_bind] in Hembed.
    rewrite Hname in Hembed. cbn [result_bind] in Hembed.
    rewrite Hcircuit in Hembed. cbn [result_bind] in Hembed.
    rewrite Hcountry in Hembed. cbn [result_bind] in Hembed.
    rewrite Hlocality in Hembed. cbn [result_bind] in Hembed.
    rewrite Hdt in Hembed. cbn [result_bind] in Hembed. congruence.
Qed.

(** ** Driver standings *)

Lemma get_cached_response_effect (url : string) (force_refresh : bool) (w : world) :
  now_us (snd (get_cached_response url force_refresh w)) = now_us w /\
  (trace (snd (get_cached_response url force_refresh w)) = trace w \/
   trace (snd (get_cached_response url force_refresh w)) = trace w ++ [HttpGet url]).
Proof.
  assert (forall w0,
    now_us (snd (get_cached_response url true w0)) = now_us w0 /\
    (trace (snd (get_cached_response url true w0)) = trace w0 \/
     trace (snd (get_cached_response url true w0)) = trace w0 ++ [HttpGet url])) as Hre.
  { intros w0. rewrite get_cached_response_refresh.
    destruct (requests_get_json url); simpl; auto. }
  destruct force_refresh; [apply Hre|].
  rewrite get_cached_response_cases.
  destruct (cache w !! url) as [[cached_data ts]|]; [|apply Hre].
  destruct (Qltb _ _); [|apply Hre]. simpl. auto.
Qed.

Ltac loop_done :=
  repeat split; auto; try (simpl; lia); try (intros ? H; discriminate H).

Lemma championship_loop_effect (drivers : list json) (e : embed) (w w' : world)
    (r : result embed) :
  championship_loop drivers e w = (r, w') ->
  exists requests,
    trace w' = trace w ++ requests /\
    now_us w' = now_us w /\
    List.Forall (fun ev => is_request ev = true) requests /\
    (length requests <= length drivers)%nat /\
    forall e', r = Ok e' -> with_championships e e'.
Proof.
  revert w. induction drivers as [|driver rest IH]; intros w E.
  - injection E as <- <-. exists []. rewrite app_nil_r. loop_done.
    intros e' [= <-]. left. reflexivity.
  - cbn [championship_loop] in E. unfold bind at 1, lift at 1 in E.
    destruct (d <~ getitem driver "Driver" ;; get_str d "driverId") as [driver_id|err].
    2:{ injection E as <- <-. exists []. rewrite app_nil_r. loop_done. }
    unfold bind at 1 in E.
    match type of E with
    | context [get_cached_response ?u false w] =>
        destruct (get_cached_response_effect u false w) as (Hnow & Htrace);
        destruct (get_cached_response u false w) as [[data|err] w1]
    end; simpl in Hnow, Htrace.
    2:{ injection E as <- <-. destruct Htrace as [Ht|Ht].
        - exists []. rewrite app_nil_r. loop_done.
        - eexists [_]. split; [exact Ht|]. loop_done. }
    assert (exists requests1,
              trace w1 = trace w ++ requests1 /\
              List.Forall (fun ev => is_request ev = true) requests1 /\
              (length requests1 <= 1)%nat) as (requests1 & Ht1 & Hreq1 & Hlen1).
    { destruct Htrace as [Ht|Ht].
      - exists []. rewrite app_nil_r. loop_done.
      - eexists [_]. split; [exact Ht|]. split; [repeat constructor|simpl; lia]. }
    unfold bind at 1, lift at 1 in E.
    destruct (m <~ getitem data "MRData" ;; t <~ get_str m "total" ;; int_of_str t)
      as [championships|err].
    2:{ injection E as <- <-. exists requests1. loop_done. }
    destruct (0 <? championships) eqn:Hpos.
    + unfold bind, lift, ret in E. destruct (full_name driver) as [name|err];
        injection E as <- <-; exists requests1; loop_done.
      intros e' [= <-]. right. exists name, championships.
      split; [apply Z.ltb_lt; exact Hpos|reflexivity].
    + destruct (IH w1 E) as (requests2 & Ht2 & Hnow2 & Hreq2 & Hlen2 & Hres2).
      exists (requests1 ++ requests2). rewrite Ht2, Ht1, app_assoc, Hnow2.
      split; [reflexivity|]. split; [exact Hnow|].
      split; [apply List.Forall_app; split; assumption|].
      split; [rewrite length_app; simpl; lia|exact Hres2].
Qed.

(** X18. When the payload has no driver standings (an empty
    [StandingsLists], as for a season that does not exist, or a missing
    key), the variable [standings] is never bound: the fallback that
    reads it raises Python's [UnboundLocalError], a subclass of
    [NameError] and modelled by it, which its [except] clause does not
    cover. The exception leaves the handler and no message is sent, not
    even the error text. *)
Theorem f1_standings_drivers_unbound (year : Z) (w w1 : world) (response : json)
    (e : exn) :
  get_cached_response (driver_standings_url year) false (acknowledged w)
    = (Ok response, w1) ->
  driver_standings_of response = Raise e ->
  f1_standings_drivers year w = (Raise (NameError "standings"), w1).
Proof.
  intros Hget Hnav. unfold f1_standings_drivers.
  unfold bind at 1, emit at 1. cbv beta iota zeta.
  change (World (cache w) (now_us w) (trace w ++ [Defer])) with (acknowledged w).
  unfold bind at 1. fold (driver_standings_url year). rewrite Hget.
  fold (driver_standings_of response). rewrite Hnav.
  rewrite try_except_bind_lift. cbn [catch_all].
  rewrite try_except_bind_lift. reflexivity.
Qed.

(** X19. When the chart is drawn, the handler ends normally and sends
    exactly one message, the chart, whatever happens to the lookups of
    the championships: between the first lookup and that message it only
    sends requests, three at most, and the embed is the one of the chart,
    with at most one more field, for a leader who has a title. *)
Theorem f1_standings_drivers_chart_sent (year : Z) (w w1 : world)
    (response standings : json) (e : embed) :
  get_cached_response (driver_standings_url year) false (acknowledged w)
    = (Ok response, w1) ->
  driver_standings_of response = Ok standings ->
  driver_standings_chart year standings = Ok e ->
  exists w2 requests e',
    f1_standings_drivers year w = (Ok tt, w2) /\
    trace w2 = trace w1 ++ requests
               ++ [FollowupSend (RichFile (set_footer e' (footer_text (now_us w1)))
                                          "driver_standings.png")] /\
    List.Forall (fun ev => is_request ev = true) requests /\
    (length requests <= 3)%nat /\
    with_championships e e'.
Proof.
  intros Hget Hnav Hchart. unfold f1_standings_drivers.
  unfold bind at 1, emit at 1. cbv beta iota zeta.
  change (World (cache w) (now_us w) (trace w ++ [Defer])) with (acknowledged w).
  unfold bind at 1. fold (driver_standings_url year). rewrite Hget.
  fold (driver_standings_of response). rewrite Hnav.
  rewrite try_except_bind_lift, try_except_bind_lift, Hchart.
  unfold try_except at 1. unfold bind at 1. unfold try_except at 1.
  unfold bind at 1, lift at 1.
  destruct (as_list standings) as [leaders|err].
  - destruct (championship_loop (take 3 leaders) e w1) as [[e'|err] w2] eqn:Eloop;
      destruct (championship_loop_effect _ _ _ _ _ Eloop)
        as (requests & Ht & Hnow & Hreq & Hlen & Hres).
    + eexists. exists requests, e'. unfold bind, utc_now, emit. simpl.
      rewrite Ht, Hnow, <- app_assoc. split; [reflexivity|].
      split; [reflexivity|]. split; [exact Hreq|].
      split; [rewrite length_take in Hlen; lia|]. apply Hres. reflexivity.
    + eexists. exists requests, e. unfold bind, utc_now, emit, ret. simpl.
      rewrite Ht, Hnow, <- app_assoc. split; [reflexivity|].
      split; [reflexivity|]. split; [exact Hreq|].
      split; [rewrite length_take in Hlen; lia|]. left. reflexivity.
  - eexists. exists [], e. unfold bind, utc_now, emit, ret. simpl.
    split; [reflexivity|]. split; [reflexivity|]. split; [constructor|].
    split; [lia|]. left. reflexivity.
Qed.

(** ** Constructor standings *)

Lemma clamp_percentage_bounds (x : Q) :
  (0 <= clamp_percentage x)%Q /\ (clamp_percentage x <= 100)%Q.
Proof.
  unfold clamp_percentage.
  destruct (Qltb 0 x) eqn:E0.
  - apply Qltb_spec in E0. destruct (Qltb x 100) eqn:E1.
    + apply Qltb_spec in E1. split; apply Qlt_le_weak; assumption.
    + split; discriminate.
  - split; discriminate.
Qed.

Lemma fifth_bounds (x : Q) :
  (0 <= x)%Q -> (x <= 100)%Q -> 0 <= Qtrunc (x / 5) <= 20.
Proof.
  intros H0 H100.
  assert (0 <= x / 5)%Q as Hnonneg.
  { apply Qle_shift_div_l; [reflexivity|]. rewrite Qmult_0_l. exact H0. }
  rewrite (Qtrunc_nonneg _ Hnonneg). split.
  - change 0 with (Qfloor 0). apply Qfloor_resp_le. exact Hnonneg.
  - change 20 with (Qfloor 20). apply Qfloor_resp_le.
    apply Qle_shift_div_r; [reflexivity|]. exact H100.
Qed.

(** X20. The bar of points of the text fallback always has 20 glyphs,
    the full ones first, one per 5 percent of the leader's points. A row
    with the leader's points has a full bar; a row whose points are not a
    number, or any row when the leader has no points, has an empty bar. *)
Theorem points_bar_shape (points : string) (max_points : Q) :
  (exists filled,
     0 <= filled <= 20 /\
     points_bar points max_points
     = str_mul "█" filled +:+ str_mul "░" (20 - filled)) /\
  (forall p, float_of_str points = Ok p -> (p == max_points)%Q ->
             (0 < max_points)%Q ->
             points_bar points max_points = str_mul "█" 20) /\
  ((is_ok (float_of_str points) = false \/ (max_points == 0)%Q) ->
   points_bar points max_points = str_mul "░" 20).
Proof.
  split; [|split].
  - unfold points_bar. eexists. split; [|reflexivity].
    destruct (float_of_str points) as [p|e].
    + destruct (Qeq_bool max_points 0).
      * apply fifth_bounds; discriminate.
      * apply fifth_bounds; apply clamp_percentage_bounds.
    + apply fifth_bounds; discriminate.
  - intros p Hp Heq Hpos. unfold points_bar. rewrite Hp.
    assert (Qeq_bool max_points 0 = false) as ->.
    { apply not_true_is_false. intros H. apply Qeq_bool_eq in H.
      rewrite H in Hpos. discriminate Hpos. }
    assert (p / max_points * 100 == 100)%Q as Hfull.
    { rewrite Heq. field. intros H. rewrite H in Hpos. discriminate Hpos. }
    assert (clamp_percentage (p / max_points * 100) = 100%Q) as ->.
    { unfold clamp_percentage.
      assert (Qltb 0 (p / max_points * 100) = true) as ->
        by (apply Qltb_spec; rewrite Hfull; reflexivity).
      assert (Qltb (p / max_points * 100) 100 = false) as ->; [|reflexivity].
      apply not_true_is_false. intros H. apply Qltb_spec in H.
      rewrite Hfull in H. discriminate H. }
    reflexivity.
  - intros Hwhy. unfold points_bar.
    destruct (float_of_str points) as [p|e]; [|reflexivity].
    destruct Hwhy as [H|H]; [discriminate H|].
    apply Qeq_eq_bool in H. rewrite H. reflexivity.
Qed.

Lemma team_lines_length (teams : list json) (max_points : Q) (lines : list string) :
  team_lines teams max_points = Ok lines -> length lines = length teams.
Proof.
  revert lines. induction teams as [|team rest IH]; intros lines; simpl.
  - intros [= <-]. reflexivity.
  - intros H. do 3 (apply result_bind_Ok in H as (? & _ & H)).
    apply result_bind_Ok in H as (lines' & Hlines & H). injection H as <-.
    simpl. f_equal. apply IH. exact Hlines.
Qed.

(** X21. The handler of the constructor standings ends with exactly one
    message in each of these cases. When the payload has no standings
    ([IndexError] or [KeyError]) it is the error text. When the chart is
    drawn it is the chart. When the chart fails, with whatever exception,
    and the rows can be read, it is the text fallback, which lists the
    first ten rows at most: the failure of the chart never reaches the
    user. *)
Theorem f1_standings_teams_one_message (year : Z) (w w1 : world) (response : json) :
  get_cached_response (team_standings_url year) false (acknowledged w)
    = (Ok response, w1) ->
  (forall e, team_standings_of response = Raise e ->
     index_or_key_error e = true ->
     f1_standings_teams year w
     = (Ok tt, after_event w1 (FollowupSend (team_standings_error e)))) /\
  (forall standings e,
     team_standings_of response = Ok standings ->
     team_standings_chart year standings = Ok e ->
     f1_standings_teams year w
     = (Ok tt, after_event w1
                 (FollowupSend (RichFile (set_footer e (footer_text (now_us w1)))
                                         "team_standings.png")))) /\
  (forall standings err teams lines,
     team_standings_of response = Ok standings ->
     team_standings_chart year standings = Raise err ->
     as_list standings = Ok teams ->
     team_lines teams (leader_points standings) = Ok lines ->
     length lines = length teams /\
     (length (take 10 lines) <= 10)%nat /\
     f1_standings_teams year w
     = (Ok tt, after_event w1
                 (FollowupSend (Rich (set_footer
                    (new_embed ("🏁 " +:+ str_of_Z year +:+ " Constructor Standings")
                       (Some (String.concat (nl +:+ nl) (take 10 lines))) 0xFFD700)
                    (footer_text (now_us w1))))))).
Proof.
  intros Hget.
  assert (
    f1_standings_teams year w
    = try_except
        (bind (lift (team_standings_of response))
           (fun standings =>
              try_except
                (e <- lift (team_standings_chart year standings) ;;
                 now <- utc_now ;;
                 emit (FollowupSend (RichFile (set_footer e (footer_text now))
                                              "team_standings.png")))
                catch_all
                (fun _ =>
                   let max_points := leader_points standings in
                   teams <- lift (as_list standings) ;;
                   lines <- lift (team_lines teams max_points) ;;
                   let e :=
                     new_embed ("🏁 " +:+ str_of_Z year +:+ " Constructor Standings")
                       (Some (String.concat (nl +:+ nl) (take 10 lines))) 0xFFD700 in
                   now <- utc_now ;;
                   emit (FollowupSend (Rich (set_footer e (footer_text now)))))))
        index_or_key_error
        (fun e => emit (FollowupSend (team_standings_error e))) w1) as Hrun.
  { unfold f1_standings_teams.
    unfold bind at 1, emit at 1. cbv beta iota zeta.
    change (World (cache w) (now_us w) (trace w ++ [Defer])) with (acknowledged w).
    unfold bind at 1. fold (team_standings_url year). rewrite Hget. reflexivity. }
  split; [|split].
  - intros e Hnav Hcatch. rewrite Hrun, try_except_bind_lift, Hnav, Hcatch.
    reflexivity.
  - intros standings e Hnav Hchart.
    rewrite Hrun, try_except_bind_lift, Hnav.
    unfold try_except, bind, lift, utc_now, emit. rewrite Hchart. reflexivity.
  - intros standings err teams lines Hnav Hchart Hteams Hlines.
    split; [apply (team_lines_length _ _ _ Hlines)|].
    split; [rewrite length_take; lia|].
    rewrite Hrun, try_except_bind_lift, Hnav.
    unfold try_except, bind, lift, utc_now, emit, catch_all.
    rewrite Hchart. cbv zeta. rewrite Hteams, Hlines. reflexivity.
Qed.

(** ** Driver lookup *)

(** X22. A lookup that finds no driver (the payload has an empty list of
    drivers) ends normally with exactly one message, the not-found text,
    sent as the response to the interaction; the cache is not touched. *)
Theorem f1_driver_not_found (name : string) (w : world)
    (response mrdata table : json) :
  requests_get_json (driver_url name) = Ok response ->
  getitem response "MRData" = Ok mrdata ->
  getitem mrdata "DriverTable" = Ok table ->
  getitem table "Drivers" = Ok (JArr []) ->
  f1_driver name w
  = (Ok tt, World (cache w) (now_us w)
              (trace w ++ [HttpGet (driver_url name); ResponseSend driver_not_found])).
Proof.
  intros Hnet Hm Ht Hd. rewrite f1_driver_run, Hnet. cbv zeta.
  unfold driver_embed. rewrite Hm. cbn [result_bind]. rewrite Ht. cbn [result_bind].
  rewrite Hd. cbn [result_bind getitem0 index_or_key_error].
  unfold after_fetch. cbn [trace]. rewrite <- app_assoc. reflexivity.
Qed.

Lemma driver_lines_length (drivers : list json) (lines : list string) :
  driver_lines drivers = Ok lines -> length lines = length drivers.
Proof.
  revert lines. induction drivers as [|driver rest IH]; intros lines; simpl.
  - intros [= <-]. reflexivity.
  - intros H. do 4 (apply result_bind_Ok in H as (? & _ & H)).
    apply result_bind_Ok in H as (lines' & Hlines & H). injection H as <-.
    simpl. f_equal. apply IH. exact Hlines.
Qed.

(** X23. When the chart of the driver standings fails, with whatever
    exception, the handler sends no chart: if the first ten rows can be
    read it ends normally with exactly one message, the text fallback
    with one line per row, ten at most; if reading them raises
    [IndexError] or [KeyError], with the error text. *)
Theorem f1_standings_drivers_fallback (year : Z) (w w1 : world)
    (response standings : json) (err : exn) (drivers : list json) :
  get_cached_response (driver_standings_url year) false (acknowledged w)
    = (Ok response, w1) ->
  driver_standings_of response = Ok standings ->
  driver_standings_chart year standings = Raise err ->
  as_list standings = Ok drivers ->
  (forall lines,
     driver_lines (take 10 drivers) = Ok lines ->
     (length lines <= 10)%nat /\
     f1_standings_drivers year w
     = (Ok tt, after_event w1
                 (FollowupSend (Rich (set_footer
                    (new_embed ("🏎️ " +:+ str_of_Z year +:+ " Driver Standings")
                       (Some (String.concat nl lines)) 0x1E90FF)
                    "Data provided by Ergast API"))))) /\
  (forall e,
     driver_lines (take 10 drivers) = Raise e ->
     index_or_key_error e = true ->
     f1_standings_drivers year w
     = (Ok tt, after_event w1 (FollowupSend (Text
         ("❌ Could not fetch driver standings. Please check the year. Error: "
          +:+ str_exn e))))).
Proof.
  intros Hget Hnav Hchart Hlist.
  assert (forall lines_result,
    driver_lines (take 10 drivers) = lines_result ->
    f1_standings_drivers year w
    = match lines_result with
      | Ok lines =>
          (Ok tt, after_event w1
             (FollowupSend (Rich (set_footer
                (new_embed ("🏎️ " +:+ str_of_Z year +:+ " Driver Standings")
                   (Some (String.concat nl lines)) 0x1E90FF)
                "Data provided by Ergast API"))))
      | Raise e =>
          if index_or_key_error e
          then (Ok tt, after_event w1 (FollowupSend (Text
                 ("❌ Could not fetch driver standings. Please check the year. Error: "
                  +:+ str_exn e))))
          else (Raise e, w1)
      end) as Hrun.
  { intros lines_result Hlines. unfold f1_standings_drivers.
    unfold bind at 1, emit at 1. cbv beta iota zeta.
    change (World (cache w) (now_us w) (trace w ++ [Defer])) with (acknowledged w).
    unfold bind at 1. fold (driver_standings_url year). rewrite Hget.
    fold (driver_standings_of response). rewrite Hnav.
    rewrite try_except_bind_lift, try_except_bind_lift, Hchart.
    cbn [catch_all]. rewrite try_except_bind_lift, try_except_bind_lift, Hlist.
    rewrite try_except_bind_lift, Hlines. destruct lines_result; reflexivity. }
  split.
  - intros lines Hlines. split.
    + rewrite (driver_lines_length _ _ Hlines), length_take. lia.
    + rewrite (Hrun _ Hlines). reflexivity.
  - intros e Hlines Hcatch. rewrite (Hrun _ Hlines), Hcatch. reflexivity.
Qed.

(** ** Handlers and the cache *)

Lemma get_cached_response_cold (url : string) (w : world) (payload : json) :
  cache w !! url = None -> requests_get_json url = Ok payload ->
  get_cached_response url false w = (Ok payload, after_store w url payload).
Proof.
  intros Hlk Hnet.
  rewrite get_cached_response_cases, Hlk, get_cached_response_refresh, Hnet.
  reflexivity.
Qed.

(** X24. A query for race results whose payload is in the cache, less
    than 3600 s old, is answered without any request: after the
    acknowledgement the handler only sends messages, and it leaves the
    cache as it was. *)
Theorem f1_results_from_cache (year round : Z) (w : world) (response : json) :
  fresh_entry w (results_url year round) response ->
  exists messages,
    trace (snd (f1_results year round w)) = trace w ++ Defer :: messages /\
    List.Forall (fun ev => is_message ev = true) messages /\
    cache (snd (f1_results year round w)) = cache w.
Proof.
  intros Hfresh.
  assert (get_cached_response (results_url year round) false (acknowledged w)
          = (Ok response, acknowledged w)) as Hget.
  { apply get_cached_response_hit. exact Hfresh. }
  rewrite f1_results_unfold, Hget.
  destruct (race_summary year response (now_us (acknowledged w)))
    as [[main rs]|e] eqn:Hsum.
  - destruct (send_pages_trace (chunks (sort_by_position rs))
                (after_event (acknowledged w) (FollowupSend (Rich main)))
                (chunks_nonempty _)) as (embeds & _ & Hrun).
    unfold try_except. rewrite Hrun. simpl.
    exists (FollowupSend (Rich main) :: map (fun e => FollowupSend (Rich e)) embeds).
    rewrite <- !app_assoc. split; [reflexivity|]. split; [|reflexivity].
    constructor; [reflexivity|]. apply List.Forall_forall. intros ev Hin.
    apply in_map_iff in Hin as (e & <- & _). reflexivity.
  - destruct (index_or_key_error e); simpl.
    + eexists [_]. rewrite <- app_assoc. split; [reflexivity|].
      split; [repeat constructor|reflexivity].
    + exists []. split; [reflexivity|]. split; [constructor|reflexivity].
Qed.

End MoreProperties.

(** ** The further properties run on concrete inputs *)

Lemma cache_round_trip_witness :
  get_cached_response (env := demo_env (net_ok (JStr "new"))) "k" false
    (World (cache (after_store w_cold "k" (JStr "new"))) (T0 + 3599999999) [])
  = (Ok (JStr "new"),
     World (cache (after_store w_cold "k" (JStr "new"))) (T0 + 3599999999) []) /\
  get_cached_response (env := demo_env (net_ok (JStr "new"))) "k" false
    (World (cache (after_store w_cold "k" (JStr "new"))) (T0 + 3600000000) [])
  = (Ok (JStr "new"),
     after_store (World (cache (after_store w_cold "k" (JStr "new")))
                        (T0 + 3600000000) []) "k" (JStr "new")).
Proof.
  assert (get_cached_response (env := demo_env (net_ok (JStr "new"))) "k" true w_cold
          = (Ok (JStr "new"), after_store w_cold "k" (JStr "new"))) as Hrun
    by (rewrite get_cached_response_refresh; reflexivity).
  split.
  - apply (cache_round_trip (env := demo_env (net_ok (JStr "new"))) "k" true w_cold
             (after_store w_cold "k" (JStr "new"))
             (World (cache (after_store w_cold "k" (JStr "new"))) (T0 + 3599999999) [])
             (JStr "new") Hrun eq_refl eq_refl).
    unfold CACHE_EXPIRY_US. simpl. lia.
  - apply (cache_round_trip (env := demo_env (net_ok (JStr "new"))) "k" true w_cold
             (after_store w_cold "k" (JStr "new"))
             (World (cache (after_store w_cold "k" (JStr "new"))) (T0 + 3600000000) [])
             (JStr "new") Hrun eq_refl eq_refl).
    unfold CACHE_EXPIRY_US. simpl. lia.
Defined.

Lemma create_progress_bar_monotone_witness :
  exists filled_p filled_q,
    create_progress_bar (env := demo_env net_down) "3" 20 20
      = Ok (str_mul "█" filled_p +:+ str_mul "░" (20 - filled_p)) /\
    create_progress_bar (env := demo_env net_down) "10" 20 20
      = Ok (str_mul "█" filled_q +:+ str_mul "░" (20 - filled_q)) /\
    0 <= filled_q <= filled_p.
Proof.
  apply (create_progress_bar_monotone (env := demo_env net_down) "3" "10" 3 10 20 20);
    (reflexivity || lia).
Defined.

Lemma create_progress_bar_width_witness :
  (exists filled,
     0 <= filled <= 20 /\
     create_progress_bar (env := demo_env net_down) "25" 20 20
       = Ok (str_mul "█" filled +:+ str_mul "░" (20 - filled))) /\
  create_progress_bar (env := demo_env net_down) "25" 20 20 = Ok (str_mul "░" 20).
Proof.
  destruct (create_progress_bar_width (env := demo_env net_down) "25" 25 20 20)
    as [Hshape Hbeyond]; [reflexivity|lia|lia|lia|].
  split; [exact Hshape|]. apply Hbeyond. lia.
Defined.

Lemma podium_of_nonpositive_position_witness :
  add_result (env := demo_env net_down) 20 (LoopState "" [] None None) (row_at "-3" (-3))
  = Raise (IndexError "list index out of range") /\
  exists st',
    add_result (env := demo_env net_down) 20 (LoopState "" [] None None) (row_at "0" 0)
    = Ok st' /\
    podium_text st' = "" +:+ podium_line "🥉" (row_at "0" 0).
Proof.
  split.
  - apply (podium_of_nonpositive_position (env := demo_env net_down)). simpl. lia.
  - apply (podium_of_nonpositive_position (env := demo_env net_down) 20
             (LoopState "" [] None None) (row_at "0" 0)).
    + simpl. lia.
    + lia.
    + reflexivity.
Defined.

Lemma fastest_lap_is_last_rank1_witness :
  fastest_lap_driver (demo_state demo_laps) = Some "Bob Second" /\
  fastest_lap_time (demo_state demo_laps) = Some "1:19.900" /\
  fastest_lap_driver (demo_state demo_grid) = None.
Proof.
  destruct (fastest_lap_is_last_rank1 (env := demo_env net_down) demo_laps
              (demo_rows demo_laps) (demo_state demo_laps) eq_refl eq_refl)
    as [Hlast _].
  destruct (fastest_lap_is_last_rank1 (env := demo_env net_down) demo_grid
              (demo_rows demo_grid) (demo_state demo_grid) eq_refl eq_refl)
    as [_ Hnone].
  destruct (Hlast (firstn 1 (demo_rows demo_laps))
              (nth 1 (demo_rows demo_laps) (row_at "0" 0))
              (skipn 2 (demo_rows demo_laps)) "1:19.900" eq_refl eq_refl)
    as [Hdriver Htime].
  - intros r [<-|[]]. reflexivity.
  - split; [exact Hdriver|]. split; [exact Htime|].
    apply Hnone. intros r Hin. vm_compute in Hin.
    repeat (destruct Hin as [<-|Hin]; [reflexivity|]). contradiction.
Defined.

Lemma results_follow_payload_witness :
  map (fun r => (fst (fst r), snd r)) (results (demo_state demo_grid_unsorted))
  = [(2, 0xFF8700); (1, 0xDC0000); (3, 0x005AFF); (4, 0x0090FF)] /\
  length (results (demo_state demo_grid_unsorted)) = 4%nat.
Proof.
  apply (results_follow_payload (env := demo_env net_down) demo_grid_unsorted
           (demo_rows demo_grid_unsorted) (demo_state demo_grid_unsorted)
           eq_refl eq_refl).
Defined.

Lemma sorted_rows_keep_their_order_witness :
  sort_by_position demo_page = demo_page /\
  concat (chunks (sort_by_position demo_page)) = demo_page.
Proof.
  apply sorted_rows_keep_their_order.
  repeat (constructor; try (unfold key_le, sort_key; simpl; lia)).
Defined.

Lemma page_embed_shape_witness :
  exists e,
    page_embed demo_page = Ok e /\
    title e = "Positions 8-11" /\
    description e = None /\
    fields e = [(zero_width_space, "eighth", true); (zero_width_space, "ninth", true);
                (zero_width_space, "eleventh", true)] /\
    color e = 0x005AFF.
Proof.
  apply (page_embed_shape (8, "eighth", 0xDC0000)
           [(9, "ninth", 0xFF8700); (11, "eleventh", 0x005AFF)]).
  repeat (constructor; try (unfold key_le, sort_key; simpl; lia)).
Defined.

Lemma cache_frame_witness :
  cache (snd (get_cached_response (env := demo_env (net_ok (JStr "new"))) "other"
                true w_fresh)) !! "k"
  = Some (JStr "stored", timestamp_of T0) /\
  is_Some (cache (snd (get_cached_response (env := demo_env (net_ok (JStr "new"))) "k"
                         true w_fresh)) !! "k").
Proof.
  destruct (cache_frame (env := demo_env (net_ok (JStr "new"))) "other" true w_fresh)
    as (Hother & _).
  destruct (cache_frame (env := demo_env (net_ok (JStr "new"))) "k" true w_fresh)
    as (_ & Hkept & _).
  split.
  - rewrite (Hother "k") by discriminate. apply lookup_singleton_eq.
  - apply Hkept. exists (JStr "stored", timestamp_of T0). apply lookup_singleton_eq.
Defined.

Lemma get_team_color_default_iff_witness :
  get_team_color (env := demo_env net_down) (Some "Tesla") = DEFAULT_COLOR /\
  get_team_color (env := demo_env net_down) (Some "scuderia ferrari") <> DEFAULT_COLOR.
Proof.
  split.
  - apply (get_team_color_default_iff (env := demo_env net_down)).
    right. right. exists "Tesla". split; [reflexivity|].
    intros t c Hin Hm. apply partial_match_spec in Hm.
    assert (forallb (fun entry =>
                       negb (partial_match (env := demo_env net_down) (fst entry) "Tesla"))
              TEAM_COLORS = true) as Hall by reflexivity.
    rewrite forallb_forall in Hall. specialize (Hall (t, c) Hin).
    simpl in Hall. rewrite Hm in Hall. discriminate Hall.
  - intros Hdef.
    apply (get_team_color_default_iff (env := demo_env net_down)) in Hdef.
    destruct Hdef as [H|[H|(name & H & Hno)]]; [discriminate H|discriminate H|].
    injection H as <-. apply (Hno "Ferrari" 0xDC0000).
    + right. left. reflexivity.
    + apply partial_match_spec. reflexivity.
Defined.

Lemma demo_results_fetched (payload : json) :
  get_cached_response (env := demo_env (net_ok payload)) (results_url 2024 16) false
    (acknowledged w_cold)
  = (Ok payload, w_ack_results payload).
Proof. apply get_cached_response_cold; reflexivity. Defined.

Lemma f1_results_messages_witness :
  exists main embeds,
    length embeds = 1%nat /\
    f1_results (env := demo_env (net_ok (race_payload demo_grid))) 2024 16 w_cold
    = (Ok tt, World (cache (w_ack_results (race_payload demo_grid))) T0
                ([Defer; HttpGet (results_url 2024 16); FollowupSend (Rich main)]
                 ++ map (fun e => FollowupSend (Rich e)) embeds)).
Proof.
  assert (exists main rs,
            race_summary (env := demo_env (net_ok (race_payload demo_grid))) 2024
              (race_payload demo_grid) T0 = Ok (main, rs)) as (main & rs & Hsum)
    by (vm_compute; eauto).
  destruct (f1_results_messages (env := demo_env (net_ok (race_payload demo_grid)))
              2024 16 w_cold _ _ main rs
              (demo_results_fetched (race_payload demo_grid)) Hsum)
    as (drivers & embeds & Hd & Hlen & _ & Hrun).
  exists main, embeds. split.
  - vm_compute in Hd. injection Hd as <-. exact Hlen.
  - exact Hrun.
Defined.

Lemma f1_results_failure_witness :
  f1_results (env := demo_env (net_ok no_race_payload)) 2024 99 w_cold
  = (Ok tt, after_event (after_store (acknowledged w_cold) (results_url 2024 99)
                           no_race_payload)
              (FollowupSend (results_error (IndexError "list index out of range")))).
Proof.
  apply (f1_results_failure (env := demo_env (net_ok no_race_payload)) 2024 99 w_cold
           _ no_race_payload (IndexError "list index out of range")).
  - apply get_cached_response_cold; reflexivity.
  - reflexivity.
Defined.

Lemma f1_results_single_entry_never_summarised_witness :
  f1_results (env := demo_env (net_ok (race_payload
      [demo_entry "1" "Ada" "First" "Ferrari" "1:30:00.000"]))) 2024 16 w_cold
  = (Raise ZeroDivisionError,
     w_ack_results (race_payload [demo_entry "1" "Ada" "First" "Ferrari" "1:30:00.000"])).
Proof.
  destruct (f1_results_single_entry_never_summarised
              (env := demo_env (net_ok (race_payload
                 [demo_entry "1" "Ada" "First" "Ferrari" "1:30:00.000"])))
              2024 16 w_cold _ _ (demo_entry "1" "Ada" "First" "Ferrari" "1:30:00.000")
              (demo_results_fetched _) eq_refl)
    as (e & _ & Hrun & Hwhy).
  rewrite (Hwhy "Italian Grand Prix" "Monza" "Italy" "2024-09-01"
             (ResultRow "1" 1 "Ada First" "Ferrari" 0xDC0000 None "1:30:00.000")
             eq_refl eq_refl eq_refl eq_refl eq_refl ltac:(simpl; lia)) in Hrun.
  exact Hrun.
Defined.

Lemma countdown_whole_seconds_witness :
  countdown_text (T0 + 1) T0 = "🕒 **Countdown:** 0d 0h 0m 0s" /\
  countdown_text (T0 + 61999999) T0 = countdown_text (T0 + 61000000) T0.
Proof.
  destruct (countdown_whole_seconds (T0 + 1) T0 ltac:(lia)) as [_ Hsub].
  destruct (countdown_whole_seconds (T0 + 61000000) T0 ltac:(lia)) as [Hsame _].
  split.
  - apply Hsub. lia.
  - apply Hsame; [lia|reflexivity].
Defined.


Lemma f1_next_failure_witness :
  f1_next (env := demo_env_charts true (net_ok bad_date_payload)) w_cold
  = (Raise ValueError,
     World (<[NEXT_URL := (bad_date_payload, timestamp_of T0)]> ∅) T0
           [Defer; HttpGet NEXT_URL]) /\
  f1_next (env := demo_env_charts true (net_ok no_race_payload)) w_cold
  = (Ok tt,
     World (<[NEXT_URL := (no_race_payload, timestamp_of T0)]> ∅) T0
           [Defer; HttpGet NEXT_URL;
            FollowupSend (Text ("❌ Could not fetch the next race details. Error: "
                                +:+ "list index out of range"))]).
Proof.
  split.
  - apply (f1_next_failure (env := demo_env_charts true (net_ok bad_date_payload))
             w_cold bad_date_payload ValueError eq_refl eq_refl).
  - apply (f1_next_failure (env := demo_env_charts true (net_ok no_race_payload))
             w_cold no_race_payload (IndexError "list index out of range")
             eq_refl eq_refl).
Defined.

Lemma f1_standings_drivers_unbound_witness :
  f1_standings_drivers (env := demo_env_charts true (net_ok no_standings_payload))
    1900 w_cold
  = (Raise (NameError "standings"),
     after_store (acknowledged w_cold) (driver_standings_url 1900) no_standings_payload).
Proof.
  apply (f1_standings_drivers_unbound
           (env := demo_env_charts true (net_ok no_standings_payload)) 1900 w_cold _
           no_standings_payload (IndexError "list index out of range")).
  - apply get_cached_response_cold; reflexivity.
  - reflexivity.
Defined.

Lemma f1_standings_drivers_chart_sent_witness :
  exists w2 requests e',
    f1_standings_drivers
      (env := demo_env_charts true
                (net_ok (driver_standings_payload demo_driver_standings)))
      2024 w_cold = (Ok tt, w2) /\
    trace w2
    = [Defer; HttpGet (driver_standings_url 2024)] ++ requests
      ++ [FollowupSend (RichFile (set_footer e' (footer_text
            (env := demo_env_charts true
                      (net_ok (driver_standings_payload demo_driver_standings))) T0))
            "driver_standings.png")] /\
    (length requests <= 3)%nat.
Proof.
  destruct (f1_standings_drivers_chart_sent
              (env := demo_env_charts true
                        (net_ok (driver_standings_payload demo_driver_standings)))
              2024 w_cold
              (after_store (acknowledged w_cold) (driver_standings_url 2024)
                 (driver_standings_payload demo_driver_standings))
              (driver_standings_payload demo_driver_standings)
              (JArr demo_driver_standings) chart_embed)
    as (w2 & requests & e' & Hrun & Htrace & _ & Hlen & _).
  - apply get_cached_response_cold; reflexivity.
  - reflexivity.
  - reflexivity.
  - exists w2, requests, e'. split; [exact Hrun|]. split; [exact Htrace|exact Hlen].
Defined.

Lemma f1_standings_drivers_fallback_witness :
  f1_standings_drivers
    (env := demo_env_charts false
              (net_ok (driver_standings_payload demo_driver_standings)))
    2024 w_cold
  = (Ok tt, after_event
              (after_store (acknowledged w_cold) (driver_standings_url 2024)
                 (driver_standings_payload demo_driver_standings))
              (FollowupSend (Rich (set_footer
                 (new_embed ("🏎️ " +:+ str_of_Z 2024 +:+ " Driver Standings")
                    (Some (String.concat nl
                       ["**#1** Ada First (Ferrari) - 400 pts 🏅";
                        "**#2** Bob Second (McLaren) - 300 pts 🏅"])) 0x1E90FF)
                 "Data provided by Ergast API")))).
Proof.
  destruct (f1_standings_drivers_fallback
              (env := demo_env_charts false
                        (net_ok (driver_standings_payload demo_driver_standings)))
              2024 w_cold
              (after_store (acknowledged w_cold) (driver_standings_url 2024)
                 (driver_standings_payload demo_driver_standings))
              (driver_standings_payload demo_driver_standings)
              (JArr demo_driver_standings) ValueError demo_driver_standings)
    as (Hlines & _).
  - apply get_cached_response_cold; reflexivity.
  - reflexivity.
  - reflexivity.
  - reflexivity.
  - apply (Hlines ["**#1** Ada First (Ferrari) - 400 pts 🏅";
                   "**#2** Bob Second (McLaren) - 300 pts 🏅"]). reflexivity.
Defined.

Lemma points_bar_shape_witness :
  points_bar (env := demo_env_charts true net_down) "600" 600 = str_mul "█" 20 /\
  points_bar (env := demo_env_charts true net_down) "n/a" 600 = str_mul "░" 20 /\
  points_bar (env := demo_env_charts true net_down) "300" 600
  = str_mul "█" 10 +:+ str_mul "░" 10.
Proof.
  destruct (points_bar_shape (env := demo_env_charts true net_down) "600" 600)
    as (_ & Hfull & _).
  destruct (points_bar_shape (env := demo_env_charts true net_down) "n/a" 600)
    as (_ & _ & Hempty).
  split; [|split].
  - apply (Hfull 600%Q); reflexivity.
  - apply Hempty. left. reflexivity.
  - reflexivity.
Defined.

Lemma f1_standings_teams_one_message_witness :
  f1_standings_teams (env := demo_env_charts true (net_ok no_standings_payload))
    1900 w_cold
  = (Ok tt, after_event
              (after_store (acknowledged w_cold) (team_standings_url 1900)
                 no_standings_payload)
              (FollowupSend (team_standings_error
                               (IndexError "list index out of range")))) /\
  f1_standings_teams
    (env := demo_env_charts true (net_ok (team_standings_payload demo_team_standings)))
    2024 w_cold
  = (Ok tt, after_event
              (after_store (acknowledged w_cold) (team_standings_url 2024)
                 (team_standings_payload demo_team_standings))
              (FollowupSend (RichFile (set_footer chart_embed
                 (footer_text (env := demo_env_charts true net_down) T0))
                 "team_standings.png"))) /\
  exists lines,
    length lines = 2%nat /\
    f1_standings_teams
      (env := demo_env_charts false (net_ok (team_standings_payload demo_team_standings)))
      2024 w_cold
    = (Ok tt, after_event
                (after_store (acknowledged w_cold) (team_standings_url 2024)
                   (team_standings_payload demo_team_standings))
                (FollowupSend (Rich (set_footer
                   (new_embed ("🏁 " +:+ str_of_Z 2024 +:+ " Constructor Standings")
                      (Some (String.concat (nl +:+ nl) (take 10 lines))) 0xFFD700)
                   (footer_text (env := demo_env_charts true net_down) T0))))).
Proof.
  split; [|split].
  - destruct (f1_standings_teams_one_message
                (env := demo_env_charts true (net_ok no_standings_payload)) 1900 w_cold
                (after_store (acknowledged w_cold) (team_standings_url 1900)
                   no_standings_payload) no_standings_payload) as (Herr & _).
    + apply get_cached_response_cold; reflexivity.
    + apply (Herr (IndexError "list index out of range")); reflexivity.
  - destruct (f1_standings_teams_one_message
                (env := demo_env_charts true
                          (net_ok (team_standings_payload demo_team_standings)))
                2024 w_cold
                (after_store (acknowledged w_cold) (team_standings_url 2024)
                   (team_standings_payload demo_team_standings))
                (team_standings_payload demo_team_standings)) as (_ & Hchart & _).
    + apply get_cached_response_cold; reflexivity.
    + apply (Hchart (JArr demo_team_standings) chart_embed); reflexivity.
  - destruct (f1_standings_teams_one_message
                (env := demo_env_charts false
                          (net_ok (team_standings_payload demo_team_standings)))
                2024 w_cold
                (after_store (acknowledged w_cold) (team_standings_url 2024)
                   (team_standings_payload demo_team_standings))
                (team_standings_payload demo_team_standings)) as (_ & _ & Hfallback).
    + apply get_cached_response_cold; reflexivity.
    + assert (exists lines,
                team_lines (env := demo_env_charts false
                   (net_ok (team_standings_payload demo_team_standings)))
                  demo_team_standings
                  (leader_points (env := demo_env_charts false
                     (net_ok (team_standings_payload demo_team_standings)))
                     (JArr demo_team_standings)) = Ok lines) as (lines & Hlines)
        by (vm_compute; eauto).
      destruct (Hfallback (JArr demo_team_standings) ValueError demo_team_standings lines
                  eq_refl eq_refl eq_refl Hlines) as (Hlen & _ & Hrun).
      exists lines. split; [exact Hlen|exact Hrun].
Defined.

Lemma f1_driver_not_found_witness :
  f1_driver (env := demo_env (net_ok no_driver_payload)) "nobody" w_driver_cached
  = (Ok tt, World (cache w_driver_cached) T0
              [HttpGet (driver_url "nobody"); ResponseSend driver_not_found]).
Proof.
  apply (f1_driver_not_found (env := demo_env (net_ok no_driver_payload)) "nobody"
           w_driver_cached no_driver_payload
           (JObj [("DriverTable", JObj [("Drivers", JArr [])])])
           (JObj [("Drivers", JArr [])])); reflexivity.
Defined.

Lemma f1_results_from_cache_witness :
  exists messages,
    trace (snd (f1_results (env := demo_env net_down) 2024 16
                  (World {[ results_url 2024 16 := (race_payload demo_grid,
                                                     timestamp_of T0) ]}
                         (T0 + 60000000) [])))
    = Defer :: messages /\
    List.Forall (fun ev => is_message ev = true) messages.
Proof.
  destruct (f1_results_from_cache (env := demo_env net_down) 2024 16
              (World {[ results_url 2024 16 := (race_payload demo_grid,
                                                 timestamp_of T0) ]}
                     (T0 + 60000000) [])
              (race_payload demo_grid)) as (messages & Htrace & Hall & _).
  - exists (timestamp_of T0). split; [apply lookup_singleton_eq|].
    apply Qltb_spec. reflexivity.
  - exists messages. split; [exact Htrace|exact Hall].
Defined.
